(** * Consistent Screenshot Tool: the overlay and capture engine of [cst.py]

    A shallow embedding of the two classes of [cst.py], [Overlay] and
    [MainWindow], and of the part of Qt and of the operating system that
    their handlers read and write: the pointer position, the clock, the
    directories and image files on disk, the application-wide override
    cursor and input grabs.  Handlers are state transformers over a
    [World]; what they send to the outside (lines printed, painter
    commands, the screen grab, the file write, the callback) is appended
    to a log carried by the world, in the order of the calls.

    Python integers are unbounded: they are [Z], and [//] is [Z.div]
    (both round towards minus infinity for a positive divisor). *)

From stdpp Require Import base numbers gmap strings pretty list.

Local Open Scope string_scope.
Local Open Scope Z_scope.
Local Open Scope list_scope.

(** ** Qt values *)

(** [QPoint(x, y)]; [px] and [py] are its [x()] and [y()]. *)
Record QPoint := mkQPoint { px : Z; py : Z }.

(** [QRect(left, top, width, height)] *)
Record QRect := mkQRect { left : Z; top : Z; rwidth : Z; rheight : Z }.

(** Values of [Qt.MouseButton] a press event can carry. *)
Inductive MouseButton :=
  | LeftButton | RightButton | MiddleButton | BackButton | ForwardButton.

Global Instance MouseButton_eq_dec : EqDecision MouseButton.
Proof. solve_decision. Defined.

Definition is_LeftButton (b : MouseButton) : bool :=
  match b with LeftButton => true | _ => false end.

(** The only cursor the program builds: a transparent 1x1 pixmap. *)
Inductive QCursor := blank_cursor.

(** What [QScreen.grabWindow(0, x, y, w, h)] hands back.  Pixels are not
    modelled; the pixmap remembers the rectangle it was asked for, which for
    positive [w] and [h] is also its size. *)
Record QPixmap := mkQPixmap { grabbed : QRect }.

Definition pixmap_width (img : QPixmap) : Z := rwidth (grabbed img).
Definition pixmap_height (img : QPixmap) : Z := rheight (grabbed img).

(** The callables passed as [on_closed]: the program passes one, the bound
    method [MainWindow._overlay_closed]. *)
Inductive Callback := bound_overlay_closed.

(** ** What a handler sends out *)

Inductive Effect :=
  | Print (line : string)
  | FillRect (r : QRect) (red green blue alpha : Z)
  | SetPen (red green blue : Z) (pen_width : Z)
  | DrawRect (r : QRect)
  | GrabWindow (wid gx gy gw gh : Z)
  | Save (path : string) (img : QPixmap) (ok : bool)
  | Accept
  | Invoke (cb : Callback) (args : list Z).

(** ** Objects *)

(** An [Overlay] instance.  [_timer] is whether its [QTimer] runs,
    [visible] is [isVisible()], [geometry] the window rectangle in global
    coordinates that [showFullScreen()] gave it. *)
Record Overlay := mkOverlay {
  w : Z;
  h : Z;
  save_folder : string;
  on_closed : Callback;
  _timer : bool;
  visible : bool;
  geometry : QRect
}.

(** The [MainWindow] instance.  [folder] is its [save_folder]; [width] and
    [height] are the configured region size, as [_load_config] or
    [_save_size] stored it; [shown] is [isVisible()]. *)
Record MainWindow := mkMainWindow {
  folder : string;
  width : Z;
  height : Z;
  overlay : option Overlay;
  status : string;
  shown : bool
}.

(** The operating system as the handlers see it.  [clock] is [time.time()]
    in microseconds; [dirs] are the directories that exist and can be written
    to; [files] are the image files on disk. *)
Record Env := mkEnv {
  pos : QPoint;
  clock : Z;
  screen : QRect;
  dirs : gset string;
  files : gmap string QPixmap
}.

(** Application-wide Qt state: the override cursor stack of [QApplication]
    (the pointer image is its head, the default image when it is empty) and
    whether the overlay holds the mouse and the keyboard grab. *)
Record QApp := mkQApp {
  override_cursors : list QCursor;
  mouse_grabbed : bool;
  keyboard_grabbed : bool
}.

Record World := mkWorld {
  env : Env;
  app : QApp;
  win : MainWindow;
  log : list Effect
}.

(** ** A state monad over the world *)

Definition M (A : Type) : Type := World -> A * World.

Global Instance M_ret : MRet M := fun A (a : A) (s : World) => (a, s).
Global Instance M_bind : MBind M :=
  fun A B (k : A -> M B) (m : M A) (s : World) => let (a, s') := m s in k a s'.

Definition ret {A} (a : A) : M A := mret a.

Definition get {A} (f : World -> A) : M A := fun s => (f s, s).
Definition exec {A} (m : M A) (s : World) : World := snd (m s).

Definition emit (e : Effect) : M unit :=
  fun s => (tt, mkWorld (env s) (app s) (win s) (log s ++ [e])).
Definition print (line : string) : M unit := emit (Print line).

Definition set_app (f : QApp -> QApp) : M unit :=
  fun s => (tt, mkWorld (env s) (f (app s)) (win s) (log s)).
Definition set_win (f : MainWindow -> MainWindow) : M unit :=
  fun s => (tt, mkWorld (env s) (app s) (f (win s)) (log s)).
Definition set_env (f : Env -> Env) : M unit :=
  fun s => (tt, mkWorld (f (env s)) (app s) (win s) (log s)).

(** ** Library calls *)

(** [str(n)] of an [int]. *)
Definition str (n : Z) : string := pretty n.

(** [int(t)] of a non-negative clock reading [t] given in microseconds:
    truncation to whole seconds. *)
Definition int_seconds (t : Z) : Z := Z.quot t 1000000.

(** [os.sep] of [posixpath] *)
Definition sep : Ascii.ascii := Ascii.ascii_of_nat 47.

Fixpoint endswith_sep (p : string) : bool :=
  match p with
  | EmptyString => false
  | String c EmptyString => Ascii.eqb c sep
  | String _ p' => endswith_sep p'
  end.

Definition startswith_sep (p : string) : bool :=
  match p with
  | String c _ => Ascii.eqb c sep
  | EmptyString => false
  end.

(** [os.path.join(a, b)] of [posixpath]. *)
Definition os_path_join (a b : string) : string :=
  if startswith_sep b then b
  else if (String.eqb a "" || endswith_sep a)%bool then a +:+ b
  else a +:+ "/" +:+ b.

(** On a reversed path: what is left of the last separator, with it. *)
Fixpoint drop_name (r : string) : string :=
  match r with
  | EmptyString => EmptyString
  | String c r' => if Ascii.eqb c sep then r else drop_name r'
  end.

Fixpoint strip_sep (r : string) : string :=
  match r with
  | EmptyString => EmptyString
  | String c r' => if Ascii.eqb c sep then strip_sep r' else r
  end.

(** [os.path.dirname(p)] of [posixpath]. *)
Definition os_path_dirname (p : string) : string :=
  let head := drop_name (String.rev p) in
  match strip_sep head with
  | EmptyString => String.rev head
  | stripped => String.rev stripped
  end.

(** [QCursor.pos()] *)
Definition QCursor_pos : M QPoint := get (fun s => pos (env s)).

(** [int(time.time())] *)
Definition time_time_int : M Z := get (fun s => int_seconds (clock (env s))).

(** [self.mapFromGlobal(gp)] of a top-level window. *)
Definition mapFromGlobal (self : Overlay) (gp : QPoint) : QPoint :=
  mkQPoint (px gp - left (geometry self)) (py gp - top (geometry self)).

Definition mapToGlobal (self : Overlay) (lp : QPoint) : QPoint :=
  mkQPoint (px lp + left (geometry self)) (py lp + top (geometry self)).

(** [self.rect()] *)
Definition rect (self : Overlay) : QRect :=
  mkQRect 0 0 (rwidth (geometry self)) (rheight (geometry self)).

(** [QGuiApplication.primaryScreen().grabWindow(0, x, y, w, h)] *)
Definition grabWindow (wid gx gy gw gh : Z) : M QPixmap :=
  emit (GrabWindow wid gx gy gw gh);;
  ret (mkQPixmap (mkQRect gx gy gw gh)).

(** Whether a write to [path] goes through: its directory is there. *)
Definition writable (e : Env) (path : string) : bool :=
  bool_decide (os_path_dirname path ∈ dirs e).

(** [img.save(path)]: writes (or overwrites) the file and returns [True],
    or returns [False] and writes nothing. *)
Definition QPixmap_save (img : QPixmap) (path : string) : M bool :=
  ok ← get (fun s => writable (env s) path);
  emit (Save path img ok);;
  (if (ok : bool)
   then set_env (fun e => mkEnv (pos e) (clock e) (screen e) (dirs e)
                                (<[path := img]> (files e)))
   else ret tt);;
  ret ok.

(** [QApplication.setOverrideCursor(c)] and [restoreOverrideCursor()] *)
Definition setOverrideCursor (c : QCursor) : M unit :=
  set_app (fun a => mkQApp (c :: override_cursors a)
                           (mouse_grabbed a) (keyboard_grabbed a)).
Definition restoreOverrideCursor : M unit :=
  set_app (fun a => mkQApp (tail (override_cursors a))
                           (mouse_grabbed a) (keyboard_grabbed a)).

Definition grabMouse : M unit :=
  set_app (fun a => mkQApp (override_cursors a) true (keyboard_grabbed a)).
Definition grabKeyboard : M unit :=
  set_app (fun a => mkQApp (override_cursors a) (mouse_grabbed a) true).
Definition releaseMouse : M unit :=
  set_app (fun a => mkQApp (override_cursors a) false (keyboard_grabbed a)).
Definition releaseKeyboard : M unit :=
  set_app (fun a => mkQApp (override_cursors a) (mouse_grabbed a) false).

(** Assignment to [MainWindow.overlay], and to the object it refers to. *)
Definition set_overlay (o : option Overlay) : M unit :=
  set_win (fun m => mkMainWindow (folder m) (width m) (height m) o
                                 (status m) (shown m)).
Definition setText_status (t : string) : M unit :=
  set_win (fun m => mkMainWindow (folder m) (width m) (height m) (overlay m)
                                 t (shown m)).
Definition set_shown (b : bool) : M unit :=
  set_win (fun m => mkMainWindow (folder m) (width m) (height m) (overlay m)
                                 (status m) b).

(** Assignment to an attribute of the live [Overlay] object, the one
    [MainWindow.overlay] refers to. *)
Definition update_self (f : Overlay -> Overlay) : M unit :=
  m ← get win;
  set_overlay (f <$> overlay m).

(** [self._timer.stop()] *)
Definition timer_stop : M unit :=
  update_self (fun o => mkOverlay (w o) (h o) (save_folder o) (on_closed o)
                                  false (visible o) (geometry o)).

(** [self.hide()] of the overlay *)
Definition hide_self : M unit :=
  update_self (fun o => mkOverlay (w o) (h o) (save_folder o) (on_closed o)
                                  (_timer o) false (geometry o)).

(** ** class MainWindow: the callback *)

(** [MainWindow._overlay_closed] *)
Definition MainWindow__overlay_closed : M unit :=
  set_shown true;;
  setText_status "Preview off. Ctrl+G to preview again";;
  print "[DEBUG] Returned to main window".

(** A call [cb()] of a callback, with its arguments. *)
Definition call (cb : Callback) (args : list Z) : M unit :=
  emit (Invoke cb args);;
  match cb with
  | bound_overlay_closed => MainWindow__overlay_closed
  end.

(** ** class Overlay *)

(** [Overlay.__init__].  [showFullScreen()] makes the window visible with the
    geometry of the screen, [self._timer.start(0)] starts the timer: both show
    in the object returned.  The two [QShortcut]s are the [ShortcutCtrlG] and
    [ShortcutEscape] deliveries of [dispatch] below.  The window flags, the
    translucent background, mouse tracking and the cursor of the widget itself
    have no counterpart in the world. *)
Definition Overlay__init__ (width height : Z) (save_folder : string)
    (on_closed : Callback) : M Overlay :=
  print ("[DEBUG] Overlay init: size=(" +:+ str width +:+ "×" +:+ str height
         +:+ "), folder='" +:+ save_folder +:+ "'");;
  g ← get (fun s => screen (env s));
  print "[DEBUG] Overlay shown full-screen";;
  setOverrideCursor blank_cursor;;
  print "[DEBUG] System cursor hidden";;
  grabMouse;;
  grabKeyboard;;
  print "[DEBUG] Mouse and keyboard grabbed by overlay";;
  print "[DEBUG] Shortcuts for Ctrl+G and Esc set";;
  print "[DEBUG] Repaint timer started";;
  ret (mkOverlay width height save_folder on_closed true true g).

(** [Overlay.paintEvent]: the painter calls, in order. *)
Definition Overlay_paintEvent (self : Overlay) : M unit :=
  emit (FillRect (rect self) 0 0 0 1);;
  emit (SetPen 255 0 0 3);;
  gp ← QCursor_pos;
  let lp := mapFromGlobal self gp in
  let x := px lp - w self / 2 + 1 in
  let y := py lp - h self / 2 + 1 in
  emit (DrawRect (mkQRect x y (w self) (h self))).

(** The name of the file of a capture stamped [timestamp]. *)
Definition filename_of (timestamp : Z) : string :=
  "screenshot_" +:+ str timestamp +:+ ".png".

(** [Overlay.mousePressEvent].  What [img.save(path)] returns is dropped, as
    in the source. *)
Definition Overlay_mousePressEvent (self : Overlay) (button : MouseButton)
    : M unit :=
  if is_LeftButton button then
    gp ← QCursor_pos;
    let x := px gp - w self / 2 in
    let y := py gp - h self / 2 in
    print ("[DEBUG] Click at global (" +:+ str (px gp) +:+ ","
           +:+ str (py gp) +:+ "), region=(" +:+ str x +:+ ","
           +:+ str y +:+ "," +:+ str (w self) +:+ "," +:+ str (h self)
           +:+ ")");;
    img ← grabWindow 0 x y (w self) (h self);
    timestamp ← time_time_int;
    let filename := filename_of timestamp in
    let path := os_path_join (save_folder self) filename in
    QPixmap_save img path;;
    print ("[DEBUG] Screenshot saved: " +:+ filename);;
    emit Accept
  else
    ret tt.

(** [Overlay.closeEvent]; [super().closeEvent(event)] accepts the event. *)
Definition Overlay_closeEvent (self : Overlay) : M unit :=
  print "[DEBUG] Closing overlay";;
  timer_stop;;
  releaseMouse;;
  releaseKeyboard;;
  restoreOverrideCursor;;
  print "[DEBUG] Restored cursor, released grabs, timer stopped";;
  call (on_closed self) [];;
  emit Accept.

(** [self.close()] of [QWidget]: the close event is delivered, and the
    widget, whose handler accepted it, is hidden. *)
Definition Overlay_close (self : Overlay) : M unit :=
  Overlay_closeEvent self;;
  hide_self.

(** ** class MainWindow *)

(** The overlay, when there is one and it is visible: the test of
    [toggle_overlay], [self.overlay and self.overlay.isVisible()]. *)
Definition live_overlay (m : MainWindow) : option Overlay :=
  match overlay m with
  | Some o => if visible o then Some o else None
  | None => None
  end.

(** [MainWindow.toggle_overlay]; [otherwise] is its [else] branch. *)
Definition MainWindow_toggle_overlay : M unit :=
  self ← get win;
  let otherwise : M unit :=
    if String.eqb (folder self) "" then
      setText_status "Please select a folder first!";;
      print "[DEBUG] No folder selected, cannot open overlay"
    else
      print "[DEBUG] Toggling overlay ON";;
      set_shown false;;
      o ← Overlay__init__ (width self) (height self) (folder self)
                          bound_overlay_closed;
      set_overlay (Some o)
  in
  match live_overlay self with
  | Some o =>
      print "[DEBUG] Toggling overlay OFF";;
      Overlay_close o
  | None => otherwise
  end.

(** ** The event loop *)

(** What the event loop delivers, and what the outside does between two
    deliveries. *)
Inductive Event :=
  | ShortcutCtrlG
  | ShortcutEscape
  | MousePress (button : MouseButton)
  | TimerTick
  | ToggleCall
  | PointerMoved (p : QPoint)
  | Elapsed (microseconds : N)
  | Mkdir (d : string)
  | Rmdir (d : string).

(** The session is Active when the overlay is live. *)
Definition isActive (s : World) : bool :=
  match live_overlay (win s) with Some _ => true | None => false end.

(** Delivery of one event.  A shortcut fires only for a visible widget:
    [Ctrl+G] closes a live overlay and otherwise, with the main window on
    screen, toggles; [Escape] closes a live overlay.  A live overlay holds the
    mouse grab and gets every press; its timer repaints it. *)
Definition dispatch (ev : Event) : M unit :=
  m ← get win;
  match ev with
  | ShortcutCtrlG =>
      match live_overlay m with
      | Some o => Overlay_close o
      | None => if shown m then MainWindow_toggle_overlay else ret tt
      end
  | ShortcutEscape =>
      match live_overlay m with
      | Some o => Overlay_close o
      | None => ret tt
      end
  | MousePress button =>
      match live_overlay m with
      | Some o => Overlay_mousePressEvent o button
      | None => ret tt
      end
  | TimerTick =>
      match live_overlay m with
      | Some o => if _timer o then Overlay_paintEvent o else ret tt
      | None => ret tt
      end
  | ToggleCall => MainWindow_toggle_overlay
  | PointerMoved p =>
      set_env (fun e => mkEnv p (clock e) (screen e) (dirs e) (files e))
  | Elapsed us =>
      set_env (fun e => mkEnv (pos e) (clock e + Z.of_N us) (screen e)
                              (dirs e) (files e))
  | Mkdir d =>
      set_env (fun e => mkEnv (pos e) (clock e) (screen e) ({[d]} ∪ dirs e)
                              (files e))
  | Rmdir d =>
      set_env (fun e => mkEnv (pos e) (clock e) (screen e) (dirs e ∖ {[d]})
                              (files e))
  end.

Definition run (evs : list Event) (s : World) : World :=
  foldl (fun s ev => exec (dispatch ev) s) s evs.

(** The world when the event loop starts: the main window is on screen, with
    whatever folder and size the configuration gave it; there is no overlay,
    no grab and no override cursor. *)
Definition initial (e : Env) (fld : string) (wd ht : Z) : World :=
  mkWorld e (mkQApp [] false false)
    (mkMainWindow fld wd ht None
       "Select a folder and set size, then Ctrl+G to preview" true)
    [].

Inductive reachable : World -> Prop :=
  | reachable_initial e fld wd ht : reachable (initial e fld wd ht)
  | reachable_step s ev : reachable s -> reachable (exec (dispatch ev) s).

(** ** Reading the log *)

(** The lines printed. *)
Definition stdout (l : list Effect) : list string :=
  omap (fun e => match e with Print line => Some line | _ => None end) l.

(** What a computation appends to the log. *)
Definition emitted {A} (m : M A) (s : World) : list Effect :=
  drop (length (log s)) (log (exec m s)).

(** The rectangles handed to [grabWindow], and those stroked. *)
Definition grabs (l : list Effect) : list QRect :=
  omap (fun e => match e with
                 | GrabWindow _ gx gy gw gh => Some (mkQRect gx gy gw gh)
                 | _ => None
                 end) l.
Definition strokes (l : list Effect) : list QRect :=
  omap (fun e => match e with DrawRect r => Some r | _ => None end) l.

(** The file writes attempted: path, image, whether it went through. *)
Definition saves (l : list Effect) : list (string * QPixmap * bool) :=
  omap (fun e => match e with
                 | Save path img ok => Some (path, img, ok)
                 | _ => None
                 end) l.

(** The callbacks called, with their arguments. *)
Definition invocations (l : list Effect) : list (Callback * list Z) :=
  omap (fun e => match e with Invoke cb args => Some (cb, args) | _ => None end)
       l.

(** ** Sessions *)

(** The file of a capture at clock reading [t] into [fld]. *)
Definition capture_path (fld : string) (t : Z) : string :=
  os_path_join fld (filename_of (int_seconds t)).

(** The overlay object once closed: timer stopped, hidden. *)
Definition closed (o : Overlay) : Overlay :=
  mkOverlay (w o) (h o) (save_folder o) (on_closed o) false false (geometry o).

(** The overlay object [Overlay(...)] builds. *)
Definition opened (m : MainWindow) (e : Env) : Overlay :=
  mkOverlay (width m) (height m) (folder m) bound_overlay_closed true true
            (screen e).

(** No session: the pointer image is the default one, nothing is grabbed,
    the main window is on screen. *)
Definition idle (s : World) : Prop :=
  override_cursors (app s) = [] /\
  mouse_grabbed (app s) = false /\
  keyboard_grabbed (app s) = false /\
  shown (win s) = true.

(** A session: the timer of the overlay runs, the pointer image is the blank
    one, both grabs are held, the main window is hidden. *)
Definition engaged (s : World) (o : Overlay) : Prop :=
  _timer o = true /\
  override_cursors (app s) = [blank_cursor] /\
  mouse_grabbed (app s) = true /\
  keyboard_grabbed (app s) = true /\
  shown (win s) = false.

Definition consistent (s : World) : Prop :=
  match overlay (win s) with
  | Some o => if visible o then engaged s o else _timer o = false /\ idle s
  | None => idle s
  end.

(** The three ways out of a session: the two shortcuts of the overlay, and a
    call of [toggle_overlay]. *)
Inductive CloseTrigger := ByCtrlG | ByEscape | ByToggle.

Definition trigger_event (t : CloseTrigger) : Event :=
  match t with
  | ByCtrlG => ShortcutCtrlG
  | ByEscape => ShortcutEscape
  | ByToggle => ToggleCall
  end.

(** What a press tells whoever called the handler or watches the program:
    the value returned, the status line afterwards, the lines printed. *)
Definition told {A} (m : M A) (s : World) : A * string * list string :=
  (fst (m s), status (win (exec m s)), stdout (emitted m s)).

(** * The settings of the main window: the form and [config.txt]

    [choose_folder], [_save_size], [_save_config], [_load_config], [_build_ui]
    and [MainWindow.__init__] read and write the three settings, the three
    line edits of the form, the status line and the file [config.txt].  They
    can raise, so they live in a state monad with exceptions over a state of
    their own. *)

Module Settings.

(** The value of [self.width] or of [self.height].  [MainWindow.__init__]
    assigns neither: until [_load_config] or [_save_size] stores an integer,
    the name is the method [width()] or [height()] inherited from [QWidget]. *)
Inductive Attr := Inherited | Int (z : Z).

Inductive Exception := TypeError | ValueError.

Inductive Result (A : Type) := Ok (a : A) | Raise (e : Exception).
Arguments Ok {A} a.
Arguments Raise {A} e.

(** [config.txt]: not there; there but not a JSON document ([Invalid]); or a
    JSON object in which ["folder"], when present, is a string and
    ["width"] and ["height"], when present, are integers (other entries do
    not matter).  The working directory is taken to be writable. *)
Inductive File :=
  | Missing
  | Invalid
  | Object (folder : option string) (width height : option Z).

(** The attributes of the window, the text of its widgets, the file, the
    paths that name an existing directory, what [repr] shows for the two
    inherited methods (it has the address of the object in it), and the lines
    printed. *)
Record State := mkState {
  save_folder : string;
  width : Attr;
  height : Attr;
  folder_edit : string;
  w_edit : string;
  h_edit : string;
  status : string;
  config : File;
  directories : gset string;
  width_repr : string;
  height_repr : string;
  printed : list string
}.

Definition P (A : Type) : Type := State -> Result A * State.

Global Instance P_ret : MRet P := fun A (a : A) (s : State) => (Ok a, s).
Global Instance P_bind : MBind P :=
  fun A B (k : A -> P B) (m : P A) (s : State) =>
    match m s with
    | (Ok a, s') => k a s'
    | (Raise e, s') => (Raise e, s')
    end.

Definition pass : P unit := mret tt.
Definition raise {A} (e : Exception) : P A := fun s => (Raise e, s).
Definition get {A} (f : State -> A) : P A := fun s => (Ok (f s), s).
Definition run {A} (m : P A) (s : State) : State := snd (m s).

(** [try: body except ValueError: handler] *)
Definition try_except_ValueError {A} (body handler : P A) : P A :=
  fun s =>
    match body s with
    | (Raise ValueError, s') => handler s'
    | r => r
    end.

Definition print (line : string) : P unit :=
  fun s => (Ok tt, mkState (save_folder s) (width s) (height s)
                     (folder_edit s) (w_edit s) (h_edit s) (status s)
                     (config s) (directories s) (width_repr s)
                     (height_repr s) (printed s ++ [line])).
Definition set_save_folder (v : string) : P unit :=
  fun s => (Ok tt, mkState v (width s) (height s)
                     (folder_edit s) (w_edit s) (h_edit s) (status s)
                     (config s) (directories s) (width_repr s)
                     (height_repr s) (printed s)).
Definition set_width (v : Attr) : P unit :=
  fun s => (Ok tt, mkState (save_folder s) v (height s)
                     (folder_edit s) (w_edit s) (h_edit s) (status s)
                     (config s) (directories s) (width_repr s)
                     (height_repr s) (printed s)).
Definition set_height (v : Attr) : P unit :=
  fun s => (Ok tt, mkState (save_folder s) (width s) v
                     (folder_edit s) (w_edit s) (h_edit s) (status s)
                     (config s) (directories s) (width_repr s)
                     (height_repr s) (printed s)).
Definition set_folder_edit (v : string) : P unit :=
  fun s => (Ok tt, mkState (save_folder s) (width s) (height s)
                     v (w_edit s) (h_edit s) (status s)
                     (config s) (directories s) (width_repr s)
                     (height_repr s) (printed s)).
Definition set_w_edit (v : string) : P unit :=
  fun s => (Ok tt, mkState (save_folder s) (width s) (height s)
                     (folder_edit s) v (h_edit s) (status s)
                     (config s) (directories s) (width_repr s)
                     (height_repr s) (printed s)).
Definition set_h_edit (v : string) : P unit :=
  fun s => (Ok tt, mkState (save_folder s) (width s) (height s)
                     (folder_edit s) (w_edit s) v (status s)
                     (config s) (directories s) (width_repr s)
                     (height_repr s) (printed s)).
Definition set_status (v : string) : P unit :=
  fun s => (Ok tt, mkState (save_folder s) (width s) (height s)
                     (folder_edit s) (w_edit s) (h_edit s) v
                     (config s) (directories s) (width_repr s)
                     (height_repr s) (printed s)).
Definition set_config (v : File) : P unit :=
  fun s => (Ok tt, mkState (save_folder s) (width s) (height s)
                     (folder_edit s) (w_edit s) (h_edit s) (status s)
                     v (directories s) (width_repr s)
                     (height_repr s) (printed s)).

(** [str(self.width)] and [str(self.height)] *)
Definition str_width (s : State) : string :=
  match width s with Int z => str z | Inherited => width_repr s end.
Definition str_height (s : State) : string :=
  match height s with Int z => str z | Inherited => height_repr s end.

(** [int(x)] of such a value: a method is no number. *)
Definition int_attr (a : Attr) : P Z :=
  match a with
  | Int z => mret z
  | Inherited => raise TypeError
  end.

(** [os.path.isdir(p)] *)
Definition isdir (s : State) (p : string) : bool :=
  negb (String.eqb p "") && bool_decide (p ∈ directories s).

(** [with open(CONFIG_FILE, "w") as f: json.dump(data, f)] for the dictionary
    of [_save_config].  The file is emptied when it is opened; a value that
    is no string and no number stops the encoder with [TypeError], and the
    file is left with the start of a document. *)
Definition json_dump_settings : P unit :=
  s ← get id;
  match width s, height s with
  | Int wd, Int ht =>
      set_config (Object (Some (save_folder s)) (Some wd) (Some ht))
  | _, _ =>
      set_config Invalid;;
      raise TypeError
  end.

Definition _save_config : P unit :=
  json_dump_settings;;
  print "[DEBUG] Config saved".

Definition _load_config : P unit :=
  f ← get config;
  match f with
  | Missing => print "[DEBUG] No config file found"
  | Invalid => raise ValueError
  | Object folder wd ht =>
      let fld := default "" folder in
      s ← get id;
      (if isdir s fld
       then set_save_folder fld;;
            set_folder_edit fld;;
            print ("[DEBUG] Loaded folder: " +:+ fld)
       else pass);;
      s ← get id;
      wd ← from_option mret (int_attr (width s)) wd;
      set_width (Int wd);;
      s ← get id;
      ht ← from_option mret (int_attr (height s)) ht;
      set_height (Int ht);;
      set_w_edit (str wd);;
      set_h_edit (str ht);;
      print ("[DEBUG] Loaded size: (" +:+ str wd +:+ ", " +:+ str ht +:+ ")")
  end.

(** [choose_folder], given what the directory dialog returned (the empty
    string when it was cancelled). *)
Definition choose_folder (fld : string) : P unit :=
  if String.eqb fld "" then pass
  else
    set_save_folder fld;;
    set_folder_edit fld;;
    _save_config;;
    set_status "Folder set! Now press Ctrl+G to preview";;
    print ("[DEBUG] Folder chosen: " +:+ fld).

(** The field [_save_size] reads for a key, and the size it leaves alone. *)
Definition text_of (key : string) (s : State) : string :=
  if String.eqb key "width" then w_edit s else h_edit s.
Definition other_size (key : string) (s : State) : Attr :=
  if String.eqb key "width" then height s else width s.

Section SaveSize.

(** [int(text)] of a string: [None] when it raises [ValueError]. *)
Variable int_str : string -> option Z.

Definition _save_size (key : string) : P unit :=
  try_except_ValueError
    (s ← get id;
     val ← from_option mret (raise ValueError)
           (int_str (if String.eqb key "width" then w_edit s else h_edit s));
     let old := "(" +:+ str_width s +:+ ", " +:+ str_height s +:+ ")" in
     (if String.eqb key "width"
      then set_width (Int val)
      else set_height (Int val));;
     _save_config;;
     s ← get id;
     print ("[DEBUG] Size changed " +:+ key +:+ ": " +:+ old +:+ " → ("
            +:+ str_width s +:+ ", " +:+ str_height s +:+ ")"))
    (print "[DEBUG] Invalid size input, ignoring").

End SaveSize.

Definition _build_ui : P unit :=
  set_folder_edit "";;
  s ← get id;
  set_w_edit (str_width s);;
  set_h_edit (str_height s);;
  set_status "Select a folder and set size, then Ctrl+G to preview";;
  print "[DEBUG] UI built".

Definition MainWindow__init__ : P unit :=
  set_save_folder "";;
  print "[DEBUG] MainWindow init";;
  _build_ui;;
  _load_config;;
  print "[DEBUG] Ctrl+G shortcut for toggle set".

(** The object before [__init__] has run, with the file and the directories
    found on disk. *)
Definition blank (f : File) (ds : gset string) (wr hr : string) : State :=
  mkState "" Inherited Inherited "" "" "" "" f ds wr hr [].

(** [MainWindow()] in the main block: the outcome of [__init__] and the
    object it leaves. *)
Definition start (f : File) (ds : gset string) (wr hr : string)
    : Result unit * State :=
  MainWindow__init__ (blank f ds wr hr).

End Settings.

(** The world of the overlay engine for a window whose two sizes are
    integers: shown, no overlay, nothing grabbed, nothing logged. *)
Definition world_of (e : Env) (s : Settings.State) : option World :=
  match Settings.width s, Settings.height s with
  | Settings.Int wd, Settings.Int ht =>
      Some (mkWorld e (mkQApp [] false false)
              (mkMainWindow (Settings.save_folder s) wd ht None
                            (Settings.status s) true)
              [])
  | _, _ => None
  end.

(** ** Counting sessions in the log *)

(** The line [toggle_overlay] prints when it opens a session. *)
Definition opening_line : string := "[DEBUG] Toggling overlay ON".

(** How many sessions the log saw open, and how many times a callback was
    called. *)
Definition sessions_opened (l : list Effect) : nat :=
  length (filter (fun line => line = opening_line) (stdout l)).
Definition callbacks_called (l : list Effect) : nat :=
  length (invocations l).

(** The count kept by every event: sessions opened so far are the callbacks
    called so far, plus the session that is still active. *)
Definition balanced (s : World) : Prop :=
  sessions_opened (log s) =
  (callbacks_called (log s) + (if isActive s then 1 else 0))%nat.

(** The events that end a session. *)
Definition closes (ev : Event) : bool :=
  match ev with
  | ShortcutCtrlG | ShortcutEscape | ToggleCall => true
  | _ => false
  end.

(** The world with other directories on disk. *)
Definition with_dirs (ds : gset string) (s : World) : World :=
  mkWorld (mkEnv (pos (env s)) (clock (env s)) (screen (env s)) ds
                 (files (env s)))
          (app s) (win s) (log s).

(** ** Sample worlds *)

Definition desk : Env :=
  mkEnv (mkQPoint 1000 500) 1700000000250000 (mkQRect 0 0 1920 1080)
        {["/tmp/shots"]} ∅.

Definition w0 : World := initial desk "/tmp/shots" 800 600.
Definition w1 : World := run [ShortcutCtrlG] w0.

(** The overlay of the sample session: 800x600 into [/tmp/shots]. *)
Definition o1 : Overlay :=
  mkOverlay 800 600 "/tmp/shots" bound_overlay_closed true true
            (mkQRect 0 0 1920 1080).

(** The sample session after its folder has been deleted. *)
Definition w_gone : World := run [ShortcutCtrlG; Rmdir "/tmp/shots"] w0.

(** A reading of plain decimal numerals, to stand for [int] on a string in
    the samples. *)
Fixpoint decimal_go (acc : Z) (t : string) : option Z :=
  match t with
  | EmptyString => Some acc
  | String c t' =>
      match Ascii.is_nat c with
      | Some n => decimal_go (10 * acc + Z.of_nat n) t'
      | None => None
      end
  end.
Definition decimal (t : string) : option Z :=
  if String.eqb t "" then None else decimal_go 0 t.

(** The window after a first start, with no [config.txt], and a window with
    both sizes set. *)
Definition first_start : Settings.State :=
  snd (Settings.start Settings.Missing {["/tmp/shots"]}
         "<built-in method width of MainWindow object at 0x7f3a5c0d1e50>"
         "<built-in method height of MainWindow object at 0x7f3a5c0d1e50>").
Definition sized : Settings.State :=
  Settings.mkState "/tmp/shots" (Settings.Int 800) (Settings.Int 600)
    "/tmp/shots" "0" "abc" "Folder set! Now press Ctrl+G to preview"
    (Settings.Object (Some "/tmp/shots") (Some 800) (Some 600))
    {["/tmp/shots"]} "" "" [].

(** * Properties *)

(** ** Handlers, step by step *)

Ltac step_monad :=
  repeat (progress (unfold exec, emitted, update_self, mbind, M_bind; cbn));
  unfold setText_status, set_shown, set_overlay, print, emit, set_env,
    set_app, set_win, get, ret, mret, M_ret; cbn.

Lemma emitted_app {A} (m : M A) (s : World) (l : list Effect) :
  log (exec m s) = log s ++ l -> emitted m s = l.
Proof. unfold emitted. intros ->. apply drop_app_length. Qed.

(** A left press, in full: one line, the grab, the write, one line, the
    accept; the world changes in its files only, and only when the write goes
    through. *)
Lemma press_left (self : Overlay) (s : World) :
  let r := mkQRect (px (pos (env s)) - w self / 2)
                   (py (pos (env s)) - h self / 2) (w self) (h self) in
  let path := capture_path (save_folder self) (clock (env s)) in
  let ok := writable (env s) path in
  exists line,
    Overlay_mousePressEvent self LeftButton s =
    (tt, mkWorld
           (if ok
            then mkEnv (pos (env s)) (clock (env s)) (screen (env s))
                       (dirs (env s)) (<[path := mkQPixmap r]> (files (env s)))
            else env s)
           (app s) (win s)
           (log s ++ [Print line;
                      GrabWindow 0 (left r) (top r) (rwidth r) (rheight r);
                      Save path (mkQPixmap r) ok;
                      Print ("[DEBUG] Screenshot saved: "
                             +:+ filename_of (int_seconds (clock (env s))));
                      Accept])).
Proof.
  intros r path ok. eexists.
  unfold Overlay_mousePressEvent, grabWindow, QPixmap_save, QCursor_pos,
    time_time_int. step_monad.
  subst ok path r. unfold capture_path.
  destruct (writable _ _); step_monad; rewrite <- !app_assoc; reflexivity.
Qed.

Lemma press_left_log (self : Overlay) (s : World) :
  exists line,
    emitted (Overlay_mousePressEvent self LeftButton) s =
    [Print line;
     GrabWindow 0 (px (pos (env s)) - w self / 2)
                (py (pos (env s)) - h self / 2) (w self) (h self);
     Save (capture_path (save_folder self) (clock (env s)))
          (mkQPixmap (mkQRect (px (pos (env s)) - w self / 2)
                              (py (pos (env s)) - h self / 2)
                              (w self) (h self)))
          (writable (env s)
                    (capture_path (save_folder self) (clock (env s))));
     Print ("[DEBUG] Screenshot saved: "
            +:+ filename_of (int_seconds (clock (env s))));
     Accept].
Proof.
  destruct (press_left self s) as [line E]. exists line.
  apply emitted_app. unfold exec. rewrite E. reflexivity.
Qed.

(** A press of any other button does nothing at all. *)
Lemma press_other (self : Overlay) (button : MouseButton) (s : World) :
  button <> LeftButton -> Overlay_mousePressEvent self button s = (tt, s).
Proof. destruct button; [congruence | reflexivity ..]. Qed.

(** A repaint, in full: the veil, the pen, the rectangle. *)
Lemma paint_log (self : Overlay) (s : World) :
  let lp := mapFromGlobal self (pos (env s)) in
  emitted (Overlay_paintEvent self) s =
  [FillRect (rect self) 0 0 0 1;
   SetPen 255 0 0 3;
   DrawRect (mkQRect (px lp - w self / 2 + 1) (py lp - h self / 2 + 1)
                     (w self) (h self))].
Proof.
  intros lp. apply emitted_app.
  unfold Overlay_paintEvent, QCursor_pos. step_monad.
  rewrite <- !app_assoc. reflexivity.
Qed.

(** ** The capture rectangle and the drawn rectangle *)

(** C1: on a press of the primary button with the pointer at global
    [(cx, cy)] and a region of positive size [(w, h)], exactly one rectangle
    is handed to [grabWindow]: its origin is [(cx - w/2, cy - h/2)] with floor
    division, its size [(w, h)]. *)
Theorem capture_rectangle_centred (self : Overlay) (s : World) (cx cy : Z) :
  pos (env s) = mkQPoint cx cy ->
  0 < w self -> 0 < h self ->
  grabs (emitted (Overlay_mousePressEvent self LeftButton) s) =
  [mkQRect (cx - w self / 2) (cy - h self / 2) (w self) (h self)].
Proof.
  intros Hpos _ _. destruct (press_left_log self s) as [line ->].
  rewrite Hpos. reflexivity.
Qed.

(** Region 800x600, pointer at (1000, 500): the capture origin is
    (600, 200). *)
Lemma capture_rectangle_scenario :
  grabs (emitted (Overlay_mousePressEvent o1 LeftButton) w1) =
  [mkQRect 600 200 800 600].
Proof.
  apply (capture_rectangle_centred o1 w1 1000 500); reflexivity.
Defined.

(** C2: on a repaint with the pointer at overlay-local [(lx, ly)] and a
    region of positive size [(w, h)], exactly one rectangle is stroked: its
    top-left is [(lx - w/2 + 1, ly - h/2 + 1)] with floor division, its width
    [w] and its height [h]. *)
Theorem drawn_rectangle_offset (self : Overlay) (s : World) (lx ly : Z) :
  mapFromGlobal self (pos (env s)) = mkQPoint lx ly ->
  0 < w self -> 0 < h self ->
  strokes (emitted (Overlay_paintEvent self) s) =
  [mkQRect (lx - w self / 2 + 1) (ly - h self / 2 + 1) (w self) (h self)].
Proof.
  intros Hlp _ _. rewrite paint_log, Hlp. reflexivity.
Qed.

Lemma drawn_rectangle_scenario :
  strokes (emitted (Overlay_paintEvent o1) w1) = [mkQRect 601 201 800 600].
Proof.
  apply (drawn_rectangle_offset o1 w1 1000 500); reflexivity.
Defined.

(** While the overlay is live and its timer runs, a timer tick is a
    repaint. *)
Lemma tick_repaints (s : World) (o : Overlay) :
  live_overlay (win s) = Some o -> _timer o = true ->
  dispatch TimerTick s = Overlay_paintEvent o s.
Proof.
  intros Hlive Htimer. unfold dispatch. step_monad.
  rewrite Hlive, Htimer. reflexivity.
Qed.

(** C3: with the pointer where it is, the rectangle a repaint strokes and the
    rectangle a press captures have the same size, and the top-left of the
    first, mapped to global coordinates, is the origin of the second moved by
    (+1, +1); the same holds in overlay-local coordinates. *)
Theorem drawn_is_capture_plus_one (self : Overlay) (s : World) :
  exists d c : QRect,
    strokes (emitted (Overlay_paintEvent self) s) = [d] /\
    grabs (emitted (Overlay_mousePressEvent self LeftButton) s) = [c] /\
    mapToGlobal self (mkQPoint (left d) (top d)) =
      mkQPoint (left c + 1) (top c + 1) /\
    mkQPoint (left d) (top d) =
      mkQPoint (px (mapFromGlobal self (mkQPoint (left c) (top c))) + 1)
               (py (mapFromGlobal self (mkQPoint (left c) (top c))) + 1) /\
    rwidth d = rwidth c /\ rheight d = rheight c.
Proof.
  destruct (press_left_log self s) as [line E].
  eexists _, _. rewrite paint_log, E. cbn.
  repeat split; unfold mapToGlobal; cbn; f_equal; lia.
Qed.

(** ** Opening and closing, step by step *)

Lemma live_overlay_Some (m : MainWindow) (o : Overlay) :
  live_overlay m = Some o <-> overlay m = Some o /\ visible o = true.
Proof.
  unfold live_overlay. destruct (overlay m) as [o'|];
    [destruct (visible o') eqn:E|]; intuition congruence.
Qed.

Lemma live_overlay_None (m : MainWindow) :
  live_overlay m = None <->
  overlay m = None \/ exists o, overlay m = Some o /\ visible o = false.
Proof.
  unfold live_overlay. destruct (overlay m) as [o'|];
    [destruct (visible o') eqn:E|].
  - split; [discriminate | intros [? | (o & ? & ?)]; congruence].
  - split; [intros _; right; eauto | reflexivity].
  - split; auto.
Qed.

Lemma isActive_live (s : World) :
  isActive s = true <-> exists o, live_overlay (win s) = Some o.
Proof.
  unfold isActive. destruct (live_overlay _) as [o|]; split;
    try discriminate; eauto.
  intros [o ?]. discriminate.
Qed.

(** Closing a live overlay, in full. *)
Lemma close_live (s : World) (o : Overlay) :
  live_overlay (win s) = Some o ->
  Overlay_close o s =
  (tt, mkWorld (env s)
         (mkQApp (tail (override_cursors (app s))) false false)
         (mkMainWindow (folder (win s)) (width (win s)) (height (win s))
                       (Some (closed o))
                       "Preview off. Ctrl+G to preview again" true)
         (log s ++ [Print "[DEBUG] Closing overlay";
                    Print "[DEBUG] Restored cursor, released grabs, timer stopped";
                    Invoke (on_closed o) [];
                    Print "[DEBUG] Returned to main window";
                    Accept])).
Proof.
  intros [Ho Hv]%live_overlay_Some.
  destruct s as [e a m l]. cbn in Ho |- *.
  unfold Overlay_close, Overlay_closeEvent, hide_self, timer_stop, call,
    releaseMouse, releaseKeyboard, restoreOverrideCursor.
  destruct (on_closed o) eqn:Hcb. unfold MainWindow__overlay_closed.
  step_monad. rewrite Ho. cbn. rewrite <- !app_assoc. reflexivity.
Qed.

(** [toggle_overlay] with no live overlay and a folder set, in full. *)
Lemma toggle_opens (s : World) :
  live_overlay (win s) = None -> folder (win s) <> "" ->
  exists line,
    MainWindow_toggle_overlay s =
    (tt, mkWorld (env s)
           (mkQApp (blank_cursor :: override_cursors (app s)) true true)
           (mkMainWindow (folder (win s)) (width (win s)) (height (win s))
                         (Some (opened (win s) (env s)))
                         (status (win s)) false)
           (log s ++ [Print "[DEBUG] Toggling overlay ON";
                      Print line;
                      Print "[DEBUG] Overlay shown full-screen";
                      Print "[DEBUG] System cursor hidden";
                      Print "[DEBUG] Mouse and keyboard grabbed by overlay";
                      Print "[DEBUG] Shortcuts for Ctrl+G and Esc set";
                      Print "[DEBUG] Repaint timer started"])).
Proof.
  intros Hlive Hfld. eexists.
  apply String.eqb_neq in Hfld.
  unfold MainWindow_toggle_overlay, Overlay__init__, setOverrideCursor,
    grabMouse, grabKeyboard. step_monad.
  rewrite Hlive, Hfld. step_monad. rewrite <- !app_assoc. reflexivity.
Qed.

(** [toggle_overlay] with no live overlay and no folder, in full. *)
Lemma toggle_refuses (s : World) :
  live_overlay (win s) = None -> folder (win s) = "" ->
  MainWindow_toggle_overlay s =
  (tt, mkWorld (env s) (app s)
         (mkMainWindow (folder (win s)) (width (win s)) (height (win s))
                       (overlay (win s)) "Please select a folder first!"
                       (shown (win s)))
         (log s ++ [Print "[DEBUG] No folder selected, cannot open overlay"])).
Proof.
  intros Hlive Hfld. apply String.eqb_eq in Hfld.
  unfold MainWindow_toggle_overlay. step_monad.
  rewrite Hlive, Hfld. reflexivity.
Qed.

(** [toggle_overlay] with a live overlay closes it. *)
Lemma toggle_closes (s : World) (o : Overlay) :
  live_overlay (win s) = Some o ->
  exec MainWindow_toggle_overlay s =
  exec (Overlay_close o)
       (mkWorld (env s) (app s) (win s)
                (log s ++ [Print "[DEBUG] Toggling overlay OFF"])).
Proof.
  intros Hlive.
  unfold MainWindow_toggle_overlay. step_monad. rewrite Hlive. reflexivity.
Qed.

(** ** What every reachable world satisfies *)

Lemma consistent_ext (s s' : World) :
  app s' = app s -> win s' = win s -> consistent s -> consistent s'.
Proof.
  unfold consistent, engaged, idle. intros -> ->. exact id.
Qed.

Lemma consistent_live (s : World) (o : Overlay) :
  consistent s -> live_overlay (win s) = Some o -> engaged s o.
Proof.
  unfold consistent. intros H [Ho Hv]%live_overlay_Some.
  rewrite Ho, Hv in H. exact H.
Qed.

Lemma consistent_not_live (s : World) :
  consistent s -> live_overlay (win s) = None -> idle s.
Proof.
  unfold consistent.
  intros H [Ho | (o & Ho & Hv)]%live_overlay_None; rewrite Ho in H;
    [|rewrite Hv in H]; tauto.
Qed.

Lemma close_consistent (s : World) (o : Overlay) :
  engaged s o -> live_overlay (win s) = Some o ->
  consistent (exec (Overlay_close o) s).
Proof.
  intros (_ & Hc & _) Hlive. unfold exec. rewrite (close_live s o Hlive).
  unfold consistent, idle. cbn. rewrite Hc. auto.
Qed.

Lemma toggle_consistent (s : World) :
  consistent s -> consistent (exec MainWindow_toggle_overlay s).
Proof.
  intros Hs. destruct (live_overlay (win s)) as [o|] eqn:Hlive.
  - rewrite (toggle_closes s o Hlive).
    apply close_consistent; [|exact Hlive].
    exact (consistent_live s o Hs Hlive).
  - pose proof (consistent_not_live s Hs Hlive) as (Hc & Hm & Hk & Hsh).
    destruct (decide (folder (win s) = "")) as [Hfld | Hfld].
    + unfold exec. rewrite (toggle_refuses s Hlive Hfld).
      revert Hs. unfold consistent, engaged, idle. cbn. exact id.
    + destruct (toggle_opens s Hlive Hfld) as [line E].
      unfold exec. rewrite E.
      unfold consistent, engaged, opened. cbn. rewrite Hc. auto.
Qed.

Lemma press_state (self : Overlay) (button : MouseButton) (s : World) :
  app (exec (Overlay_mousePressEvent self button) s) = app s /\
  win (exec (Overlay_mousePressEvent self button) s) = win s.
Proof.
  destruct (decide (button = LeftButton)) as [-> | Hb].
  - destruct (press_left self s) as [line E]. unfold exec. rewrite E. auto.
  - unfold exec. rewrite (press_other self button s Hb). auto.
Qed.

Lemma paint_state (self : Overlay) (s : World) :
  env (exec (Overlay_paintEvent self) s) = env s /\
  app (exec (Overlay_paintEvent self) s) = app s /\
  win (exec (Overlay_paintEvent self) s) = win s.
Proof. auto. Qed.

Lemma dispatch_consistent (ev : Event) (s : World) :
  consistent s -> consistent (exec (dispatch ev) s).
Proof.
  intros Hs. unfold exec, dispatch. step_monad.
  destruct ev; try exact Hs;
    destruct (live_overlay (win s)) as [o|] eqn:Hlive; try exact Hs.
  - apply close_consistent; eauto using consistent_live.
  - destruct (shown (win s)); [apply toggle_consistent|]; exact Hs.
  - apply close_consistent; eauto using consistent_live.
  - eapply consistent_ext; [apply press_state .. | exact Hs].
  - destruct (_timer o); exact Hs.
  - apply toggle_consistent, Hs.
  - apply toggle_consistent, Hs.
Qed.

Lemma reachable_consistent (s : World) : reachable s -> consistent s.
Proof.
  induction 1 as [e fld wd ht | s ev _ IH].
  - unfold consistent, idle. cbn. auto.
  - apply dispatch_consistent, IH.
Qed.

Lemma run_reachable (evs : list Event) (s : World) :
  reachable s -> reachable (run evs s).
Proof.
  revert s. induction evs as [|ev evs IH]; intros s Hs; [exact Hs|].
  apply IH. constructor. exact Hs.
Qed.

(** ** Closing the session *)

(** Each way out runs the close sequence of the live overlay, after at most
    one more printed line. *)
Lemma trigger_closes (s : World) (o : Overlay) (t : CloseTrigger) :
  live_overlay (win s) = Some o ->
  exists pre,
    stdout pre = (match t with
                  | ByToggle => ["[DEBUG] Toggling overlay OFF"]
                  | _ => []
                  end) /\
    invocations pre = [] /\
    exec (dispatch (trigger_event t)) s =
    exec (Overlay_close o)
         (mkWorld (env s) (app s) (win s) (log s ++ pre)).
Proof.
  intros Hlive. destruct t.
  - exists []. rewrite app_nil_r. repeat split.
    unfold dispatch. step_monad. rewrite Hlive. destruct s; reflexivity.
  - exists []. rewrite app_nil_r. repeat split.
    unfold dispatch. step_monad. rewrite Hlive. destruct s; reflexivity.
  - exists [Print "[DEBUG] Toggling overlay OFF"]. repeat split.
    exact (toggle_closes s o Hlive).
Qed.

(** C4: from any reachable world with a live overlay, each of the three ways
    out (the Ctrl+G shortcut, the Escape shortcut, a call of
    [toggle_overlay]) ends the session: the timer of the overlay is stopped,
    the mouse grab and the keyboard grab are released, the override cursor
    stack is empty again, so the pointer image is the default one, and the
    [on_closed] callback is called exactly once, with no argument. *)
Theorem close_restores_everything (s : World) (o : Overlay) (t : CloseTrigger) :
  reachable s ->
  live_overlay (win s) = Some o ->
  let s' := exec (dispatch (trigger_event t)) s in
  isActive s' = false /\
  _timer <$> overlay (win s') = Some false /\
  mouse_grabbed (app s') = false /\
  keyboard_grabbed (app s') = false /\
  override_cursors (app s') = [] /\
  invocations (emitted (dispatch (trigger_event t)) s) = [(on_closed o, [])].
Proof.
  intros Hreach Hlive s'.
  pose proof (consistent_live s o (reachable_consistent s Hreach) Hlive)
    as (_ & Hc & _).
  destruct (trigger_closes s o t Hlive) as (pre & _ & Hpre & E).
  assert (Hs' : s' = exec (Overlay_close o)
                       (mkWorld (env s) (app s) (win s) (log s ++ pre)))
    by exact E.
  unfold exec in Hs'. rewrite close_live in Hs' by exact Hlive.
  cbn in Hs'. unfold emitted. fold s'. rewrite Hs'. cbn. rewrite Hc.
  repeat split.
  rewrite <- app_assoc, drop_app_length.
  unfold invocations in *. rewrite omap_app, Hpre. reflexivity.
Qed.

(** The sample session, closed by each of the three triggers. *)
Lemma close_restores_everything_sample :
  (let s' := exec (dispatch ShortcutCtrlG) w1 in
   isActive s' = false /\
   _timer <$> overlay (win s') = Some false /\
   mouse_grabbed (app s') = false /\
   keyboard_grabbed (app s') = false /\
   override_cursors (app s') = [] /\
   invocations (emitted (dispatch ShortcutCtrlG) w1) =
     [(bound_overlay_closed, [])]) /\
  (let s' := exec (dispatch ShortcutEscape) w1 in
   isActive s' = false /\
   _timer <$> overlay (win s') = Some false /\
   mouse_grabbed (app s') = false /\
   keyboard_grabbed (app s') = false /\
   override_cursors (app s') = [] /\
   invocations (emitted (dispatch ShortcutEscape) w1) =
     [(bound_overlay_closed, [])]) /\
  (let s' := exec (dispatch ToggleCall) w1 in
   isActive s' = false /\
   _timer <$> overlay (win s') = Some false /\
   mouse_grabbed (app s') = false /\
   keyboard_grabbed (app s') = false /\
   override_cursors (app s') = [] /\
   invocations (emitted (dispatch ToggleCall) w1) =
     [(bound_overlay_closed, [])]).
Proof.
  assert (Hreach : reachable w1)
    by (apply (run_reachable [ShortcutCtrlG]); constructor).
  exact (conj (close_restores_everything w1 o1 ByCtrlG Hreach eq_refl)
           (conj (close_restores_everything w1 o1 ByEscape Hreach eq_refl)
                 (close_restores_everything w1 o1 ByToggle Hreach eq_refl))).
Defined.

(** ** Presses *)

(** C10: in a reachable world with a live overlay, a press of a button other
    than the left one leaves the world as it is: nothing is grabbed from the
    screen, no file is written, nothing is logged, the overlay stays live and
    both grabs stay held. *)
Theorem other_button_does_nothing
    (s : World) (o : Overlay) (button : MouseButton) :
  reachable s ->
  live_overlay (win s) = Some o ->
  button <> LeftButton ->
  let s' := exec (dispatch (MousePress button)) s in
  s' = s /\
  grabs (emitted (dispatch (MousePress button)) s) = [] /\
  saves (emitted (dispatch (MousePress button)) s) = [] /\
  files (env s') = files (env s) /\
  isActive s' = true /\
  mouse_grabbed (app s') = true /\
  keyboard_grabbed (app s') = true.
Proof.
  intros Hreach Hlive Hb s'.
  pose proof (consistent_live s o (reachable_consistent s Hreach) Hlive)
    as (_ & _ & Hm & Hk & _).
  assert (E : dispatch (MousePress button) s = (tt, s)).
  { unfold dispatch. step_monad. rewrite Hlive.
    apply press_other, Hb. }
  assert (Hs' : s' = s) by (unfold s', exec; rewrite E; reflexivity).
  unfold emitted. fold s'. rewrite Hs', drop_all.
  repeat split; try assumption.
  apply isActive_live. eauto.
Qed.

Lemma other_button_does_nothing_sample :
  exec (dispatch (MousePress RightButton)) w1 = w1 /\
  exec (dispatch (MousePress MiddleButton)) w1 = w1.
Proof.
  assert (Hreach : reachable w1)
    by (apply (run_reachable [ShortcutCtrlG]); constructor).
  split.
  - apply (other_button_does_nothing w1 o1 RightButton Hreach);
      [reflexivity | discriminate].
  - apply (other_button_does_nothing w1 o1 MiddleButton Hreach);
      [reflexivity | discriminate].
Defined.

Lemma filename_not_absolute (t : Z) : startswith_sep (filename_of t) = false.
Proof. reflexivity. Qed.

(** C8: a left press whose write goes through attempts exactly one write:
    the image of the captured rectangle goes to the file
    [screenshot_<seconds>.png], [<seconds>] being the clock at the press cut
    to whole seconds, joined to the folder of the session.  That file is the
    only one that changes; the pointer, the clock, the screen, the
    directories, the application state and both windows stay as they were. *)
Theorem successful_capture_one_write (self : Overlay) (s : World) :
  let name := "screenshot_" +:+ str (int_seconds (clock (env s))) +:+ ".png" in
  let path := os_path_join (save_folder self) name in
  let img := mkQPixmap (mkQRect (px (pos (env s)) - w self / 2)
                                (py (pos (env s)) - h self / 2)
                                (w self) (h self)) in
  let s' := exec (Overlay_mousePressEvent self LeftButton) s in
  writable (env s) path = true ->
  saves (emitted (Overlay_mousePressEvent self LeftButton) s) =
    [(path, img, true)] /\
  path = (if (String.eqb (save_folder self) "" || endswith_sep (save_folder self))%bool
          then save_folder self +:+ name
          else save_folder self +:+ "/" +:+ name) /\
  files (env s') = <[path := img]> (files (env s)) /\
  (forall p, p <> path -> files (env s') !! p = files (env s) !! p) /\
  pos (env s') = pos (env s) /\
  clock (env s') = clock (env s) /\
  screen (env s') = screen (env s) /\
  dirs (env s') = dirs (env s) /\
  app s' = app s /\
  win s' = win s.
Proof.
  intros name path img s' Hok.
  destruct (press_left_log self s) as [line Hlog].
  destruct (press_left self s) as [line' E].
  assert (Hs' : s' = snd (Overlay_mousePressEvent self LeftButton s))
    by reflexivity.
  rewrite E in Hs'. cbn in Hs'.
  change (capture_path (save_folder self) (clock (env s))) with path in *.
  rewrite Hok in *. rewrite Hlog, Hs'. cbn.
  repeat split.
  intros p Hp. apply lookup_insert_ne. congruence.
Qed.

Lemma successful_capture_one_write_sample :
  saves (emitted (Overlay_mousePressEvent o1 LeftButton) w1) =
    [("/tmp/shots/screenshot_1700000000.png",
      mkQPixmap (mkQRect 600 200 800 600), true)] /\
  app (exec (Overlay_mousePressEvent o1 LeftButton) w1) = app w1 /\
  win (exec (Overlay_mousePressEvent o1 LeftButton) w1) = win w1.
Proof.
  assert (Hok : writable (env w1)
                  (os_path_join (save_folder o1)
                     ("screenshot_" +:+ str (int_seconds (clock (env w1)))
                      +:+ ".png")) = true) by (vm_compute; reflexivity).
  pose proof (successful_capture_one_write o1 w1 Hok) as H.
  cbv zeta in H.
  destruct H as (Hsaves & _ & _ & _ & _ & _ & _ & _ & Happ & Hwin).
  exact (conj Hsaves (conj Happ Hwin)).
Defined.

(** ** Opening *)

(** C7: a call of [toggle_overlay] with no live overlay and an empty folder
    opens nothing: the refusal is shown in the status line and printed, the
    session stays inactive, the overlay attribute is what it was (no window is
    made), and the application state (cursor stack, both grabs) and the
    outside are untouched. *)
Theorem empty_folder_refused (s : World) :
  isActive s = false ->
  folder (win s) = "" ->
  let s' := exec MainWindow_toggle_overlay s in
  status (win s') = "Please select a folder first!" /\
  emitted MainWindow_toggle_overlay s =
    [Print "[DEBUG] No folder selected, cannot open overlay"] /\
  isActive s' = false /\
  overlay (win s') = overlay (win s) /\
  shown (win s') = shown (win s) /\
  app s' = app s /\
  env s' = env s.
Proof.
  intros Hidle Hfld s'.
  assert (Hlive : live_overlay (win s) = None).
  { unfold isActive in Hidle. destruct (live_overlay (win s)); congruence. }
  pose proof (toggle_refuses s Hlive Hfld) as E.
  assert (Hs' : s' = snd (MainWindow_toggle_overlay s)) by reflexivity.
  rewrite E in Hs'. cbn in Hs'.
  unfold emitted. fold s'. rewrite Hs'. cbn. rewrite drop_app_length.
  repeat split. exact Hidle.
Qed.

(** Folder unset, the shortcut pressed in the main window: nothing opens and
    nothing is grabbed. *)
Lemma empty_folder_refused_sample :
  let s := initial desk "" 800 600 in
  let s' := exec MainWindow_toggle_overlay s in
  status (win s') = "Please select a folder first!" /\
  isActive s' = false /\ overlay (win s') = None /\
  app s' = mkQApp [] false false.
Proof.
  pose proof (empty_folder_refused (initial desk "" 800 600)
                eq_refl eq_refl) as H.
  cbv zeta in H. destruct H as (Hst & _ & Hact & Hov & _ & Happ & _).
  exact (conj Hst (conj Hact (conj Hov Happ))).
Defined.

(** C6, as stated, fails: with a folder set and a width of 0 (or a height of
    0), [toggle_overlay] opens the overlay with that size and takes both
    grabs, and the status line does not change. *)
Lemma zero_size_opens :
  (let s := initial desk "/tmp/shots" 0 600 in
   let s' := exec MainWindow_toggle_overlay s in
   isActive s' = true /\
   w <$> overlay (win s') = Some 0 /\
   app s' = mkQApp [blank_cursor] true true /\
   status (win s') = status (win s)) /\
  (let s := initial desk "/tmp/shots" 800 0 in
   let s' := exec MainWindow_toggle_overlay s in
   isActive s' = true /\
   h <$> overlay (win s') = Some 0 /\
   app s' = mkQApp [blank_cursor] true true /\
   status (win s') = status (win s)).
Proof. vm_compute. repeat split. Qed.

(** C6, amended: a call of [toggle_overlay] with no live overlay and a folder
    set opens the overlay whatever the configured width and height are, 0
    included: the session is active, the overlay carries that width and that
    height, both grabs are taken and the status line does not change. *)
Theorem open_does_not_check_size (s : World) :
  isActive s = false ->
  folder (win s) <> "" ->
  let s' := exec MainWindow_toggle_overlay s in
  isActive s' = true /\
  overlay (win s') =
    Some (mkOverlay (width (win s)) (height (win s)) (folder (win s))
                    bound_overlay_closed true true (screen (env s))) /\
  mouse_grabbed (app s') = true /\
  keyboard_grabbed (app s') = true /\
  status (win s') = status (win s).
Proof.
  intros Hidle Hfld s'.
  assert (Hlive : live_overlay (win s) = None).
  { unfold isActive in Hidle. destruct (live_overlay (win s)); congruence. }
  destruct (toggle_opens s Hlive Hfld) as [line E].
  assert (Hs' : s' = snd (MainWindow_toggle_overlay s)) by reflexivity.
  rewrite E in Hs'. rewrite Hs'. cbn. repeat split.
Qed.

Lemma open_does_not_check_size_sample :
  let s' := exec MainWindow_toggle_overlay (initial desk "/tmp/shots" 0 0) in
  isActive s' = true /\
  overlay (win s') =
    Some (mkOverlay 0 0 "/tmp/shots" bound_overlay_closed true true
                    (mkQRect 0 0 1920 1080)).
Proof.
  assert (Hfld : folder (win (initial desk "/tmp/shots" 0 0)) <> "")
    by discriminate.
  pose proof (open_does_not_check_size (initial desk "/tmp/shots" 0 0)
                eq_refl Hfld) as H.
  cbv zeta in H. destruct H as (Hact & Hov & _).
  exact (conj Hact Hov).
Defined.

(** ** File names *)

Lemma length_append (a b : string) :
  String.length (a +:+ b) = (String.length a + String.length b)%nat.
Proof.
  induction a as [|c a IH]; [reflexivity|].
  change (String c a +:+ b) with (String c (a +:+ b)). cbn. now rewrite IH.
Qed.

Lemma append_inj_r (a b c : string) : a +:+ c = b +:+ c -> a = b.
Proof.
  revert b. induction a as [|x a IH]; intros [|y b] E.
  - reflexivity.
  - apply (f_equal String.length) in E.
    rewrite !length_append in E. cbn in E. lia.
  - apply (f_equal String.length) in E.
    rewrite !length_append in E. cbn in E. lia.
  - change (String x (a +:+ c) = String y (b +:+ c)) in E.
    injection E as -> E. f_equal. apply IH, E.
Qed.

(** Two captures into one folder go to the same file exactly when the clock
    shows the same second. *)
Lemma capture_path_inj (fld : string) (t1 t2 : Z) :
  capture_path fld t1 = capture_path fld t2 <->
  int_seconds t1 = int_seconds t2.
Proof.
  split; [|intros E; unfold capture_path; now rewrite E].
  unfold capture_path, os_path_join.
  rewrite !filename_not_absolute.
  intros E.
  assert (E' : filename_of (int_seconds t1) = filename_of (int_seconds t2)).
  { destruct (String.eqb fld "" || endswith_sep fld)%bool.
    - exact (String.app_inj fld _ _ E).
    - apply String.app_inj in E. exact (String.app_inj "/" _ _ E). }
  unfold filename_of in E'. apply String.app_inj in E'.
  apply append_inj_r in E'. exact (pretty_Z_inj _ _ E').
Qed.

Lemma dispatch_press (s : World) (o : Overlay) (button : MouseButton) :
  live_overlay (win s) = Some o ->
  dispatch (MousePress button) s = Overlay_mousePressEvent o button s.
Proof.
  intros Hlive. unfold dispatch. step_monad. rewrite Hlive. reflexivity.
Qed.

Lemma dispatch_press_exec (s : World) (o : Overlay) (button : MouseButton) :
  live_overlay (win s) = Some o ->
  exec (dispatch (MousePress button)) s =
    exec (Overlay_mousePressEvent o button) s /\
  emitted (dispatch (MousePress button)) s =
    emitted (Overlay_mousePressEvent o button) s.
Proof.
  intros Hlive. unfold emitted, exec.
  rewrite (dispatch_press s o button Hlive). auto.
Qed.

(** ** A write that fails *)

(** C5, as stated, fails: with the folder deleted mid-session the write of a
    left press fails and no file appears, yet the press tells exactly what a
    press whose write goes through tells: it returns nothing, leaves the
    status line alone and prints the same two lines, the second one that the
    screenshot was saved. *)
Lemma failed_write_not_reported :
  saves (emitted (Overlay_mousePressEvent o1 LeftButton) w_gone) =
    [("/tmp/shots/screenshot_1700000000.png",
      mkQPixmap (mkQRect 600 200 800 600), false)] /\
  files (env (exec (Overlay_mousePressEvent o1 LeftButton) w_gone)) = ∅ /\
  saves (emitted (Overlay_mousePressEvent o1 LeftButton) w1) =
    [("/tmp/shots/screenshot_1700000000.png",
      mkQPixmap (mkQRect 600 200 800 600), true)] /\
  told (Overlay_mousePressEvent o1 LeftButton) w_gone =
    (tt, status (win w_gone),
     ["[DEBUG] Click at global (1000,500), region=(600,200,800,600)";
      "[DEBUG] Screenshot saved: screenshot_1700000000.png"]) /\
  told (Overlay_mousePressEvent o1 LeftButton) w_gone =
  told (Overlay_mousePressEvent o1 LeftButton) w1.
Proof. vm_compute. repeat split. Qed.

(** C5, amended: in a reachable world with a live overlay, a left press
    whose write fails attempts that one write and returns nothing: the
    files, the status line, both windows and the application state are what
    they were, so the session is still active with both grabs held; and after any
    further events that leave this overlay live, a left press whose write goes
    through stores the image of the captured rectangle under its path, with
    the session still active. *)
Theorem failed_write_keeps_session (s : World) (o : Overlay) :
  reachable s ->
  live_overlay (win s) = Some o ->
  writable (env s) (capture_path (save_folder o) (clock (env s))) = false ->
  let s1 := exec (dispatch (MousePress LeftButton)) s in
  fst (dispatch (MousePress LeftButton) s) = tt /\
  saves (emitted (dispatch (MousePress LeftButton)) s) =
    [(capture_path (save_folder o) (clock (env s)),
      mkQPixmap (mkQRect (px (pos (env s)) - w o / 2)
                         (py (pos (env s)) - h o / 2) (w o) (h o)),
      false)] /\
  env s1 = env s /\
  app s1 = app s /\
  win s1 = win s /\
  isActive s1 = true /\
  mouse_grabbed (app s1) = true /\
  keyboard_grabbed (app s1) = true /\
  forall evs : list Event,
    let s2 := run evs s1 in
    let path := capture_path (save_folder o) (clock (env s2)) in
    live_overlay (win s2) = Some o ->
    writable (env s2) path = true ->
    let s3 := exec (dispatch (MousePress LeftButton)) s2 in
    files (env s3) !! path =
      Some (mkQPixmap (mkQRect (px (pos (env s2)) - w o / 2)
                               (py (pos (env s2)) - h o / 2) (w o) (h o))) /\
    isActive s3 = true.
Proof.
  intros Hreach Hlive Hfail s1.
  pose proof (consistent_live s o (reachable_consistent s Hreach) Hlive)
    as (_ & _ & Hm & Hk & _).
  destruct (press_left_log o s) as [line Hlog].
  destruct (press_left o s) as [line' E]. cbv zeta in E.
  rewrite Hfail in E, Hlog.
  destruct (dispatch_press_exec s o LeftButton Hlive) as [Hexec Hem].
  assert (Hs1 : s1 = snd (Overlay_mousePressEvent o LeftButton s))
    by exact Hexec.
  rewrite E in Hs1. cbn in Hs1.
  rewrite Hem, Hlog, Hs1.
  split; [now destruct (fst _)|].
  split; [reflexivity|]. split; [reflexivity|]. split; [reflexivity|].
  split; [reflexivity|]. split; [apply isActive_live; eauto|].
  split; [exact Hm|]. split; [exact Hk|].
  intros evs s2 path Hlive2 Hok s3.
  destruct (dispatch_press_exec s2 o LeftButton Hlive2) as [Hexec2 _].
  assert (Hs3 : s3 = snd (Overlay_mousePressEvent o LeftButton s2))
    by exact Hexec2.
  destruct (press_left o s2) as [line2 E2]. cbv zeta in E2.
  fold path in E2. rewrite Hok in E2. rewrite E2 in Hs3. cbn in Hs3.
  rewrite Hs3. cbn. split; [apply lookup_insert_eq|].
  apply isActive_live. exists o. exact Hlive2.
Qed.

(** The folder is deleted, a press fails; the folder is made again, five
    seconds pass, and the next press stores its file. *)
Lemma failed_write_keeps_session_sample :
  let s3 := run [MousePress LeftButton; Mkdir "/tmp/shots"; Elapsed 5000000;
                 MousePress LeftButton] w_gone in
  files (env s3) !! "/tmp/shots/screenshot_1700000005.png" =
    Some (mkQPixmap (mkQRect 600 200 800 600)) /\
  isActive s3 = true.
Proof.
  assert (Hreach : reachable w_gone)
    by (apply (run_reachable [ShortcutCtrlG; Rmdir "/tmp/shots"]); constructor).
  assert (Hfail : writable (env w_gone)
                    (capture_path (save_folder o1) (clock (env w_gone)))
                  = false) by (vm_compute; reflexivity).
  pose proof (failed_write_keeps_session w_gone o1 Hreach eq_refl Hfail) as H.
  cbv zeta in H. destruct H as (_ & _ & _ & _ & _ & _ & _ & _ & H).
  assert (Hlive : live_overlay
                    (win (run [Mkdir "/tmp/shots"; Elapsed 5000000]
                            (exec (dispatch (MousePress LeftButton)) w_gone)))
                  = Some o1) by (vm_compute; reflexivity).
  specialize (H [Mkdir "/tmp/shots"; Elapsed 5000000] Hlive).
  vm_compute in H. vm_compute. exact (H eq_refl).
Defined.

(** ** Two captures in a row *)

(** C9, as stated, fails: two left presses 0.3 s apart within one second of
    the clock, pointer and region unchanged, write to the same path, and one
    file is on disk afterwards, not two. *)
Lemma same_second_same_file :
  let s := run [MousePress LeftButton; Elapsed 300000; MousePress LeftButton]
               w1 in
  saves (log s) =
    [("/tmp/shots/screenshot_1700000000.png",
      mkQPixmap (mkQRect 600 200 800 600), true);
     ("/tmp/shots/screenshot_1700000000.png",
      mkQPixmap (mkQRect 600 200 800 600), true)] /\
  map_to_list (files (env s)) =
    [("/tmp/shots/screenshot_1700000000.png",
      mkQPixmap (mkQRect 600 200 800 600))].
Proof. vm_compute. split; reflexivity. Qed.

(** C9, amended: take a left press in a world with a live overlay, then any
    events that leave this overlay live and the pointer where it was, then a
    second left press.  Each press attempts one write; the two images have
    the same width and the same height, those of the region; and the two
    paths differ exactly when the clock, cut to whole seconds, differs
    between the two presses. *)
Theorem successive_captures (s : World) (o : Overlay) (evs : list Event) :
  let s1 := exec (dispatch (MousePress LeftButton)) s in
  let s2 := run evs s1 in
  live_overlay (win s) = Some o ->
  live_overlay (win s2) = Some o ->
  pos (env s2) = pos (env s) ->
  exists path1 path2 img1 img2 ok1 ok2,
    saves (emitted (dispatch (MousePress LeftButton)) s) =
      [(path1, img1, ok1)] /\
    saves (emitted (dispatch (MousePress LeftButton)) s2) =
      [(path2, img2, ok2)] /\
    pixmap_width img1 = w o /\ pixmap_height img1 = h o /\
    pixmap_width img2 = w o /\ pixmap_height img2 = h o /\
    img1 = img2 /\
    (path1 <> path2 <->
     int_seconds (clock (env s)) <> int_seconds (clock (env s2))).
Proof.
  intros s1 s2 Hlive Hlive2 Hpos.
  destruct (dispatch_press_exec s o LeftButton Hlive) as [_ ->].
  destruct (dispatch_press_exec s2 o LeftButton Hlive2) as [_ ->].
  destruct (press_left_log o s) as [line1 ->].
  destruct (press_left_log o s2) as [line2 ->].
  rewrite Hpos. do 6 eexists.
  split; [reflexivity|]. split; [reflexivity|].
  split; [reflexivity|]. split; [reflexivity|].
  split; [reflexivity|]. split; [reflexivity|].
  split; [reflexivity|].
  now rewrite capture_path_inj.
Qed.

(** A second apart the names differ; the images have the same size. *)
Lemma successive_captures_sample :
  let s2 := run [Elapsed 1000000] (exec (dispatch (MousePress LeftButton)) w1) in
  exists path1 path2 img1 img2 ok1 ok2,
    saves (emitted (dispatch (MousePress LeftButton)) w1) =
      [(path1, img1, ok1)] /\
    saves (emitted (dispatch (MousePress LeftButton)) s2) =
      [(path2, img2, ok2)] /\
    pixmap_width img1 = 800 /\ pixmap_height img1 = 600 /\
    pixmap_width img2 = 800 /\ pixmap_height img2 = 600 /\
    img1 = img2 /\
    (path1 <> path2 <->
     int_seconds (clock (env w1)) <> int_seconds (clock (env s2))).
Proof.
  exact (successive_captures w1 o1 [Elapsed 1000000] eq_refl eq_refl eq_refl).
Defined.

Example successive_captures_a_second_apart :
  saves (log (run [MousePress LeftButton; Elapsed 1000000;
                   MousePress LeftButton] w1)) =
    [("/tmp/shots/screenshot_1700000000.png",
      mkQPixmap (mkQRect 600 200 800 600), true);
     ("/tmp/shots/screenshot_1700000001.png",
      mkQPixmap (mkQRect 600 200 800 600), true)].
Proof. vm_compute. reflexivity. Qed.

(** * More on the session *)

(** ** One window at a time *)

(** X1: in every reachable world exactly one of the two windows is on screen:
    the main window is shown exactly when no session is active; both grabs are
    held exactly while a session is active; the override cursor stack holds
    the blank cursor once during a session and nothing otherwise; and the
    timer of an overlay object runs exactly while that overlay is visible. *)
Theorem one_window_at_a_time (s : World) :
  reachable s ->
  shown (win s) = negb (isActive s) /\
  mouse_grabbed (app s) = isActive s /\
  keyboard_grabbed (app s) = isActive s /\
  override_cursors (app s) = (if isActive s then [blank_cursor] else []) /\
  (forall o, overlay (win s) = Some o -> _timer o = visible o).
Proof.
  intros Hc%reachable_consistent. revert Hc.
  unfold consistent, engaged, idle, isActive, live_overlay.
  destruct (overlay (win s)) as [o|]; [destruct (visible o) eqn:Hv|].
  - intros (Ht & -> & -> & -> & ->). repeat split.
    intros o' [= <-]. congruence.
  - intros (Ht & -> & -> & -> & ->). repeat split.
    intros o' [= <-]. congruence.
  - intros (-> & -> & -> & ->). repeat split. discriminate.
Qed.

Lemma one_window_at_a_time_sample :
  shown (win w1) = false /\ isActive w1 = true /\
  override_cursors (app w1) = [blank_cursor] /\
  shown (win (run [ShortcutEscape] w1)) = true /\
  override_cursors (app (run [ShortcutEscape] w1)) = [].
Proof.
  assert (H1 : reachable w1)
    by (apply (run_reachable [ShortcutCtrlG]); constructor).
  assert (H2 : reachable (run [ShortcutEscape] w1))
    by (apply (run_reachable [ShortcutEscape]); exact H1).
  destruct (one_window_at_a_time w1 H1) as (A1 & _ & _ & A2 & _).
  destruct (one_window_at_a_time _ H2) as (B1 & _ & _ & B2 & _).
  exact (conj A1 (conj eq_refl (conj A2 (conj B1 B2)))).
Defined.

(** ** Opening, then closing *)

(** X2: from a reachable world with no session and a folder set, opening the
    overlay and then leaving it by any of the three ways gives back the
    outside and the application state exactly as they were (no override
    cursor, no grab); the main window is on screen again with its folder and
    size untouched, and its status line says the preview is off. *)
Theorem open_then_close_restores (s : World) (t : CloseTrigger) :
  reachable s ->
  isActive s = false ->
  folder (win s) <> "" ->
  let s' := exec (dispatch (trigger_event t))
                 (exec MainWindow_toggle_overlay s) in
  env s' = env s /\
  app s' = app s /\
  folder (win s') = folder (win s) /\
  width (win s') = width (win s) /\
  height (win s') = height (win s) /\
  shown (win s') = true /\
  isActive s' = false /\
  status (win s') = "Preview off. Ctrl+G to preview again".
Proof.
  intros Hreach Hidle Hfld s'.
  assert (Hlive : live_overlay (win s) = None).
  { unfold isActive in Hidle. destruct (live_overlay (win s)); congruence. }
  pose proof (consistent_not_live s (reachable_consistent s Hreach) Hlive)
    as (Hc & Hm & Hk & _).
  destruct (toggle_opens s Hlive Hfld) as [line E].
  assert (E1 : exec MainWindow_toggle_overlay s =
               snd (MainWindow_toggle_overlay s)) by reflexivity.
  rewrite E in E1. cbn [snd] in E1.
  subst s'. rewrite E1. clear E E1.
  set (o := opened (win s) (env s)).
  match goal with |- context [exec _ ?w] => set (s1 := w) end.
  assert (Hlive1 : live_overlay (win s1) = Some o) by reflexivity.
  destruct (trigger_closes s1 o t Hlive1) as (pre & _ & _ & ->).
  unfold exec.
  rewrite (close_live (mkWorld (env s1) (app s1) (win s1) (log s1 ++ pre))
             o Hlive1). cbn.
  repeat split.
  destruct (app s) as [cs mg kg]. cbn in *. congruence.
Qed.

Lemma open_then_close_restores_sample :
  let s' := exec (dispatch ShortcutEscape)
                 (exec MainWindow_toggle_overlay w0) in
  env s' = env w0 /\ app s' = app w0 /\ shown (win s') = true.
Proof.
  assert (Hfld : folder (win w0) <> "") by discriminate.
  pose proof (open_then_close_restores w0 ByEscape
                (reachable_initial _ _ _ _) eq_refl Hfld) as H.
  cbv zeta in H. destruct H as (He & Ha & _ & _ & _ & Hs & _).
  exact (conj He (conj Ha Hs)).
Defined.

(** ** What a session keeps fixed *)

(** X3: the overlay object of a session never changes while the session lasts:
    after any event, either the event is one of the three that end a session
    and no overlay is live, or the live overlay is the very same object (same
    region size, folder, callback, geometry, timer running). *)
Theorem session_object_is_fixed (s : World) (o : Overlay) (ev : Event) :
  live_overlay (win s) = Some o ->
  live_overlay (win (exec (dispatch ev) s)) =
    (if closes ev then None else Some o).
Proof.
  intros Hlive.
  assert (Hclose : forall t, live_overlay
                     (win (exec (dispatch (trigger_event t)) s)) = None).
  { intros t. destruct (trigger_closes s o t Hlive) as (pre & _ & _ & ->).
    unfold exec.
    rewrite (close_live (mkWorld (env s) (app s) (win s) (log s ++ pre))
               o Hlive). reflexivity. }
  destruct ev; cbn [closes];
    try exact (Hclose ByCtrlG); try exact (Hclose ByEscape);
    try exact (Hclose ByToggle); try exact Hlive.
  - destruct (dispatch_press_exec s o button Hlive) as [-> _].
    destruct (press_state o button s) as [_ ->]. exact Hlive.
  - unfold exec, dispatch. step_monad. rewrite Hlive.
    destruct (_timer o); exact Hlive.
Qed.

Lemma session_object_is_fixed_sample :
  live_overlay (win (run [MousePress LeftButton] w1)) = Some o1 /\
  live_overlay (win (run [ShortcutEscape] w1)) = None.
Proof.
  exact (conj (session_object_is_fixed w1 o1 (MousePress LeftButton) eq_refl)
              (session_object_is_fixed w1 o1 ShortcutEscape eq_refl)).
Defined.

(** ** Files *)

(** X4: only a left press in a live session touches the files: any other event
    leaves them as they are, and such a press either leaves them as they are
    (the write failed) or stores the image of the captured rectangle under
    the path of this capture, in the folder of the session. *)
Theorem files_change_only_by_capture (s : World) (ev : Event) :
  let s' := exec (dispatch ev) s in
  files (env s') = files (env s) \/
  exists o,
    ev = MousePress LeftButton /\
    live_overlay (win s) = Some o /\
    writable (env s) (capture_path (save_folder o) (clock (env s))) = true /\
    files (env s') =
      <[capture_path (save_folder o) (clock (env s)) :=
          mkQPixmap (mkQRect (px (pos (env s)) - w o / 2)
                             (py (pos (env s)) - h o / 2) (w o) (h o))]>
        (files (env s)).
Proof.
  intros s'. subst s'.
  destruct (live_overlay (win s)) as [o|] eqn:Hlive.
  - destruct ev;
      try (left; reflexivity);
      try (left;
           match goal with
           | |- context [dispatch ?e] =>
               let t := match e with
                        | ShortcutCtrlG => constr:(ByCtrlG)
                        | ShortcutEscape => constr:(ByEscape)
                        | ToggleCall => constr:(ByToggle)
                        end in
               destruct (trigger_closes s o t Hlive) as (pre & _ & _ & E);
               cbn [trigger_event] in E; rewrite E; unfold exec;
               rewrite (close_live
                          (mkWorld (env s) (app s) (win s) (log s ++ pre))
                          o Hlive); reflexivity
           end).
    + destruct (dispatch_press_exec s o button Hlive) as [-> _].
      destruct (decide (button = LeftButton)) as [-> | Hb].
      * destruct (press_left o s) as [line E]. cbv zeta in E.
        unfold exec. rewrite E. cbn [snd env].
        destruct (writable _ _) eqn:Hok; [right | left; reflexivity].
        exists o. repeat split. exact Hok.
      * unfold exec. rewrite (press_other o button s Hb). left. reflexivity.
    + left. unfold exec, dispatch. step_monad. rewrite Hlive.
      destruct (_timer o); reflexivity.
  - left. destruct ev; try reflexivity.
    + unfold exec, dispatch. step_monad. rewrite Hlive.
      destruct (shown (win s)); [|reflexivity].
      destruct (decide (folder (win s) = "")) as [Hfld | Hfld].
      * rewrite (toggle_refuses s Hlive Hfld). reflexivity.
      * destruct (toggle_opens s Hlive Hfld) as [line ->]. reflexivity.
    + unfold exec, dispatch. step_monad. rewrite Hlive. reflexivity.
    + unfold exec, dispatch. step_monad. rewrite Hlive. reflexivity.
    + unfold exec, dispatch. step_monad. rewrite Hlive. reflexivity.
    + change (exec (dispatch ToggleCall) s)
        with (snd (MainWindow_toggle_overlay s)).
      destruct (decide (folder (win s) = "")) as [Hfld | Hfld].
      * rewrite (toggle_refuses s Hlive Hfld). reflexivity.
      * destruct (toggle_opens s Hlive Hfld) as [line ->]. reflexivity.
Qed.

(** X5: no run of events removes a file: the files on disk at the start are
    still there at the end. *)
Theorem files_are_never_removed (s : World) (evs : list Event) :
  dom (files (env s)) ⊆ dom (files (env (run evs s))).
Proof.
  revert s. induction evs as [|ev evs IH]; intros s; [reflexivity|].
  change (run (ev :: evs) s) with (run evs (exec (dispatch ev) s)).
  etrans; [|apply IH].
  destruct (files_change_only_by_capture s ev) as [-> | (o & _ & _ & _ & ->)];
    [reflexivity|].
  rewrite dom_insert. set_solver.
Qed.

(** ** One callback per session *)

Lemma sessions_opened_app (l1 l2 : list Effect) :
  sessions_opened (l1 ++ l2) = (sessions_opened l1 + sessions_opened l2)%nat.
Proof.
  unfold sessions_opened, stdout. now rewrite omap_app, filter_app, length_app.
Qed.

Lemma callbacks_called_app (l1 l2 : list Effect) :
  callbacks_called (l1 ++ l2) =
  (callbacks_called l1 + callbacks_called l2)%nat.
Proof.
  unfold callbacks_called, invocations. now rewrite omap_app, length_app.
Qed.

Lemma init_line_differs (x : string) :
  "[DEBUG] Overlay init: size=(" +:+ x <> opening_line.
Proof. unfold opening_line. cbv [String.append]. discriminate. Qed.

Lemma click_line_differs (x : string) :
  "[DEBUG] Click at global (" +:+ x <> opening_line.
Proof. unfold opening_line. cbv [String.append]. discriminate. Qed.

Lemma saved_line_differs (x : string) :
  "[DEBUG] Screenshot saved: " +:+ x <> opening_line.
Proof. unfold opening_line. cbv [String.append]. discriminate. Qed.

(** The lines a left press prints, and the line [Overlay.__init__] prints
    first. *)
Lemma press_left_stdout (self : Overlay) (s : World) :
  stdout (emitted (Overlay_mousePressEvent self LeftButton) s) =
  ["[DEBUG] Click at global (" +:+ str (px (pos (env s))) +:+ ","
     +:+ str (py (pos (env s))) +:+ "), region=("
     +:+ str (px (pos (env s)) - w self / 2) +:+ ","
     +:+ str (py (pos (env s)) - h self / 2) +:+ ","
     +:+ str (w self) +:+ "," +:+ str (h self) +:+ ")";
   "[DEBUG] Screenshot saved: "
     +:+ filename_of (int_seconds (clock (env s)))].
Proof.
  unfold emitted, Overlay_mousePressEvent, grabWindow, QPixmap_save,
    QCursor_pos, time_time_int. step_monad.
  destruct (writable _ _); step_monad;
    rewrite <- !app_assoc, drop_app_length; reflexivity.
Qed.

Lemma toggle_opens_stdout (s : World) :
  live_overlay (win s) = None -> folder (win s) <> "" ->
  stdout (emitted MainWindow_toggle_overlay s) =
  [opening_line;
   "[DEBUG] Overlay init: size=(" +:+ str (width (win s)) +:+ "×"
     +:+ str (height (win s)) +:+ "), folder='" +:+ folder (win s) +:+ "'";
   "[DEBUG] Overlay shown full-screen";
   "[DEBUG] System cursor hidden";
   "[DEBUG] Mouse and keyboard grabbed by overlay";
   "[DEBUG] Shortcuts for Ctrl+G and Esc set";
   "[DEBUG] Repaint timer started"].
Proof.
  intros Hlive Hfld. apply String.eqb_neq in Hfld.
  unfold emitted, MainWindow_toggle_overlay, Overlay__init__,
    setOverrideCursor, grabMouse, grabKeyboard. step_monad.
  rewrite Hlive, Hfld. step_monad.
  rewrite <- !app_assoc, drop_app_length. reflexivity.
Qed.

Lemma sessions_opened_prints (l : list Effect) (lines : list string) :
  stdout l = lines ->
  sessions_opened l = length (filter (fun x => x = opening_line) lines).
Proof. unfold sessions_opened. now intros ->. Qed.

Lemma balanced_ext (s s' : World) :
  log s' = log s -> win s' = win s -> balanced s -> balanced s'.
Proof. unfold balanced, isActive. now intros -> ->. Qed.

Ltac count_lines :=
  unfold sessions_opened, callbacks_called; cbn;
  unfold opening_line; repeat case_decide; try discriminate; cbn; try lia.

Lemma close_balanced (s : World) (o : Overlay) (t : CloseTrigger) :
  live_overlay (win s) = Some o ->
  balanced s -> balanced (exec (dispatch (trigger_event t)) s).
Proof.
  intros Hlive. unfold balanced, isActive. rewrite Hlive.
  destruct (trigger_closes s o t Hlive) as (pre & Hout & Hinv & ->).
  unfold exec.
  rewrite (close_live (mkWorld (env s) (app s) (win s) (log s ++ pre))
             o Hlive).
  cbn [snd log win live_overlay overlay visible closed].
  rewrite !sessions_opened_app, !callbacks_called_app.
  rewrite (sessions_opened_prints pre _ Hout).
  assert (Hpre : callbacks_called pre = 0%nat)
    by (unfold callbacks_called; now rewrite Hinv).
  rewrite Hpre. intros ->. destruct t; count_lines.
Qed.

Lemma press_balanced (s : World) (o : Overlay) (button : MouseButton) :
  balanced s -> balanced (exec (Overlay_mousePressEvent o button) s).
Proof.
  destruct (decide (button = LeftButton)) as [-> | Hb].
  - pose proof (press_left_stdout o s) as Hout.
    destruct (press_left_log o s) as [line Hlog].
    destruct (press_left o s) as [line' E]. cbv zeta in E.
    pose proof (emitted_app (Overlay_mousePressEvent o LeftButton) s _
                  ltac:(unfold exec; rewrite E; reflexivity)) as Hem.
    unfold balanced, isActive, exec. rewrite E. cbn [snd log win].
    rewrite sessions_opened_app, callbacks_called_app.
    rewrite <- Hem.
    rewrite (sessions_opened_prints _ _ Hout).
    rewrite filter_cons_False by apply click_line_differs.
    rewrite filter_cons_False by apply saved_line_differs.
    rewrite Hlog. cbn. lia.
  - unfold exec. now rewrite (press_other o button s Hb).
Qed.

Lemma paint_balanced (s : World) (o : Overlay) :
  balanced s -> balanced (exec (Overlay_paintEvent o) s).
Proof.
  assert (E : exists l, stdout l = [] /\ invocations l = [] /\
                exec (Overlay_paintEvent o) s =
                mkWorld (env s) (app s) (win s) (log s ++ l)).
  { eexists. split; [|split];
      [| |unfold Overlay_paintEvent, QCursor_pos; step_monad;
           rewrite <- !app_assoc; reflexivity]; reflexivity. }
  destruct E as (l & Hout & Hinv & ->).
  unfold balanced, isActive. cbn [log win].
  rewrite sessions_opened_app, callbacks_called_app.
  assert (H1 : sessions_opened l = 0%nat)
    by (unfold sessions_opened; now rewrite Hout).
  assert (H2 : callbacks_called l = 0%nat)
    by (unfold callbacks_called; now rewrite Hinv).
  rewrite H1, H2. lia.
Qed.

Lemma toggle_balanced (s : World) :
  live_overlay (win s) = None ->
  balanced s -> balanced (exec MainWindow_toggle_overlay s).
Proof.
  intros Hlive.
  destruct (decide (folder (win s) = "")) as [Hfld | Hfld].
  - unfold balanced, isActive, exec.
    rewrite (toggle_refuses s Hlive Hfld). cbn [snd log win].
    rewrite sessions_opened_app, callbacks_called_app.
    change (live_overlay (mkMainWindow _ _ _ (overlay (win s)) _ _))
      with (live_overlay (win s)).
    rewrite Hlive. intros ->. count_lines.
  - pose proof (toggle_opens_stdout s Hlive Hfld) as Hout.
    destruct (toggle_opens s Hlive Hfld) as [line E].
    pose proof (emitted_app MainWindow_toggle_overlay s _
                  ltac:(unfold exec; rewrite E; reflexivity)) as Hem.
    unfold balanced, isActive, exec. rewrite E, Hlive. cbn [snd log win].
    rewrite sessions_opened_app, callbacks_called_app.
    rewrite <- Hem at 1. rewrite (sessions_opened_prints _ _ Hout).
    rewrite filter_cons_True by reflexivity.
    rewrite filter_cons_False by apply init_line_differs.
    intros ->. count_lines.
Qed.

Lemma dispatch_balanced (s : World) (ev : Event) :
  balanced s -> balanced (exec (dispatch ev) s).
Proof.
  intros Hs. destruct (live_overlay (win s)) as [o|] eqn:Hlive.
  - destruct ev;
      try exact (close_balanced s o ByCtrlG Hlive Hs);
      try exact (close_balanced s o ByEscape Hlive Hs);
      try exact (close_balanced s o ByToggle Hlive Hs);
      try (apply (balanced_ext s); [reflexivity .. | exact Hs]).
    + destruct (dispatch_press_exec s o button Hlive) as [-> _].
      apply press_balanced, Hs.
    + unfold exec, dispatch. step_monad. rewrite Hlive.
      destruct (_timer o); [|exact Hs].
      apply paint_balanced, Hs.
  - destruct ev;
      try (apply (balanced_ext s); [reflexivity .. | exact Hs]);
      try (unfold exec, dispatch; step_monad; rewrite Hlive; exact Hs).
    + unfold exec, dispatch. step_monad. rewrite Hlive.
      destruct (shown (win s)); [|exact Hs].
      apply toggle_balanced; assumption.
    + apply toggle_balanced; assumption.
Qed.

(** X6: in every reachable world the callback [on_closed] has been called once
    for each session that was opened and has ended, and never otherwise: the
    number of sessions opened is the number of callback calls, plus one while
    a session is active. *)
Theorem one_callback_per_session (s : World) :
  reachable s ->
  sessions_opened (log s) =
  (callbacks_called (log s) + (if isActive s then 1 else 0))%nat.
Proof.
  induction 1 as [e fld wd ht | s ev _ IH]; [reflexivity|].
  apply dispatch_balanced, IH.
Qed.

Lemma one_callback_per_session_sample :
  let s := run [ShortcutCtrlG; MousePress LeftButton; ShortcutEscape;
                ShortcutCtrlG; ToggleCall; ShortcutCtrlG] w0 in
  sessions_opened (log s) =
  (callbacks_called (log s) + (if isActive s then 1 else 0))%nat.
Proof.
  exact (one_callback_per_session _
           (run_reachable
              [ShortcutCtrlG; MousePress LeftButton; ShortcutEscape;
               ShortcutCtrlG; ToggleCall; ShortcutCtrlG] w0
              (reachable_initial _ _ _ _))).
Defined.

Example three_sessions_two_callbacks :
  let s := run [ShortcutCtrlG; MousePress LeftButton; ShortcutEscape;
                ShortcutCtrlG; ToggleCall; ShortcutCtrlG] w0 in
  sessions_opened (log s) = 3%nat /\ callbacks_called (log s) = 2%nat /\
  isActive s = true.
Proof. vm_compute. repeat split. Qed.

(** ** What a press says *)

(** X7: what a left press returns, shows in the status line and prints is the
    same whether or not its write goes through: it returns nothing, leaves
    the status line alone and prints the click line and then the line saying
    that the screenshot was saved, whatever directories exist. *)
Theorem press_says_saved_regardless
    (self : Overlay) (s : World) (ds : gset string) :
  told (Overlay_mousePressEvent self LeftButton) s =
    (tt, status (win s),
     ["[DEBUG] Click at global (" +:+ str (px (pos (env s))) +:+ ","
        +:+ str (py (pos (env s))) +:+ "), region=("
        +:+ str (px (pos (env s)) - w self / 2) +:+ ","
        +:+ str (py (pos (env s)) - h self / 2) +:+ ","
        +:+ str (w self) +:+ "," +:+ str (h self) +:+ ")";
      "[DEBUG] Screenshot saved: "
        +:+ filename_of (int_seconds (clock (env s)))]) /\
  told (Overlay_mousePressEvent self LeftButton) (with_dirs ds s) =
  told (Overlay_mousePressEvent self LeftButton) s.
Proof.
  assert (H : forall s0,
    told (Overlay_mousePressEvent self LeftButton) s0 =
    (tt, status (win s0),
     stdout (emitted (Overlay_mousePressEvent self LeftButton) s0))).
  { intros s0. unfold told.
    destruct (press_state self LeftButton s0) as [_ ->].
    now destruct (fst _). }
  split.
  - rewrite H, press_left_stdout. reflexivity.
  - rewrite !H, !press_left_stdout. reflexivity.
Qed.

(** * The settings *)

Module SettingsFacts.
Import Settings.

Ltac step_settings :=
  repeat (progress (unfold run, mbind, P_bind, pass, mret, P_ret; cbn));
  unfold print, set_save_folder, set_width, set_height, set_folder_edit,
    set_w_edit, set_h_edit, set_status, set_config, raise, get; cbn.

(** [_save_config] on a window whose two sizes are integers. *)
Lemma save_config_sized (s : State) (wd ht : Z) :
  width s = Int wd -> height s = Int ht ->
  _save_config s =
  (Ok tt, mkState (save_folder s) (Int wd) (Int ht) (folder_edit s)
            (w_edit s) (h_edit s) (status s)
            (Object (Some (save_folder s)) (Some wd) (Some ht))
            (directories s) (width_repr s) (height_repr s)
            (printed s ++ ["[DEBUG] Config saved"])).
Proof.
  intros Hw Hh. destruct s. cbn in Hw, Hh. subst.
  unfold _save_config, json_dump_settings. step_settings. reflexivity.
Qed.

(** [_save_config] on a window one of whose sizes is still the inherited
    method. *)
Lemma save_config_unsized (s : State) :
  width s = Inherited \/ height s = Inherited ->
  _save_config s =
  (Raise TypeError,
   mkState (save_folder s) (width s) (height s) (folder_edit s)
     (w_edit s) (h_edit s) (status s) Invalid
     (directories s) (width_repr s) (height_repr s) (printed s)).
Proof.
  intros H. destruct s as [f wd ht fe we he st c ds wr hr pr]. cbn in H.
  unfold _save_config, json_dump_settings. step_settings.
  destruct wd, ht; try reflexivity. destruct H; discriminate.
Qed.


(** [_load_config] on the file [_save_config] writes. *)
Lemma load_config_object (s : State) (fld : string) (wd ht : Z) :
  config s = Object (Some fld) (Some wd) (Some ht) ->
  _load_config s =
  (Ok tt,
   mkState (if isdir s fld then fld else save_folder s) (Int wd) (Int ht)
     (if isdir s fld then fld else folder_edit s) (str wd) (str ht)
     (status s) (config s) (directories s) (width_repr s) (height_repr s)
     (printed s
      ++ (if isdir s fld then ["[DEBUG] Loaded folder: " +:+ fld] else [])
      ++ ["[DEBUG] Loaded size: (" +:+ str wd +:+ ", " +:+ str ht +:+ ")"])).
Proof.
  intros Hc. destruct s as [f w0 h0 fe we he st c ds wr hr pr].
  cbn in Hc. subst c. unfold _load_config. step_settings.
  destruct (isdir _ fld); step_settings;
    rewrite <- ?app_assoc; reflexivity.
Qed.

(** X9: settings survive a restart: when both sizes are integers, the window
    started on the file [_save_config] wrote comes up with the same two sizes
    in its attributes and in its form; it has the saved folder if that still
    names a directory, and no folder otherwise. *)
Theorem settings_survive_restart
    (s : State) (wd ht : Z) (ds : gset string) (wr hr : string) :
  width s = Int wd ->
  height s = Int ht ->
  let saved := config (run _save_config s) in
  let kept := negb (String.eqb (save_folder s) "")
              && bool_decide (save_folder s ∈ ds) in
  fst (start saved ds wr hr) = Ok tt /\
  width (snd (start saved ds wr hr)) = Int wd /\
  height (snd (start saved ds wr hr)) = Int ht /\
  w_edit (snd (start saved ds wr hr)) = str wd /\
  h_edit (snd (start saved ds wr hr)) = str ht /\
  save_folder (snd (start saved ds wr hr)) =
    (if kept then save_folder s else "") /\
  folder_edit (snd (start saved ds wr hr)) =
    (if kept then save_folder s else "").
Proof.
  intros Hw Hh saved kept. subst saved kept.
  unfold run. rewrite (save_config_sized s wd ht Hw Hh). cbn [snd config].
  unfold start, MainWindow__init__, _build_ui, blank.
  step_settings.
  match goal with
  | |- context [_load_config ?t] =>
      rewrite (load_config_object t (save_folder s) wd ht eq_refl)
  end.
  unfold isdir. cbn.
  destruct (negb _ && _); repeat split.
Qed.

Lemma settings_survive_restart_sample :
  let t := snd (start (config (run _save_config sized)) {["/tmp/shots"]}
                  "" "") in
  width t = Int 800 /\ height t = Int 600 /\ save_folder t = "/tmp/shots" /\
  w_edit t = "800" /\ h_edit t = "600".
Proof.
  pose proof (settings_survive_restart sized 800 600 {["/tmp/shots"]} "" ""
                eq_refl eq_refl) as H.
  vm_compute in H. vm_compute.
  destruct H as (_ & Hw & Hh & Hwe & Hhe & Hf & _).
  exact (conj Hw (conj Hh (conj Hf (conj Hwe Hhe)))).
Defined.

(** X10: a first start, with no [config.txt], and a first choice of folder: the
    window comes up with no integer size, its two size fields showing the
    text of the inherited methods; [choose_folder] with a folder then raises
    [TypeError] out of [_save_config], after the folder was stored and shown
    and before the status line is updated, and it leaves [config.txt]
    unreadable: every later start raises [ValueError]. *)
Theorem first_folder_choice_breaks_config
    (fld : string) (ds : gset string) (wr hr : string) :
  fld <> "" ->
  let s0 := snd (start Missing ds wr hr) in
  let s1 := snd (choose_folder fld s0) in
  width s0 = Inherited /\ height s0 = Inherited /\
  w_edit s0 = wr /\ h_edit s0 = hr /\
  fst (choose_folder fld s0) = Raise TypeError /\
  save_folder s1 = fld /\ folder_edit s1 = fld /\
  status s1 = status s0 /\
  config s1 = Invalid /\
  forall ds' wr' hr', fst (start (config s1) ds' wr' hr') = Raise ValueError.
Proof.
  intros Hfld%String.eqb_neq s0 s1. subst s0 s1.
  unfold choose_folder. rewrite Hfld.
  unfold start, MainWindow__init__, _build_ui, _load_config, blank.
  step_settings. unfold set_save_folder, set_folder_edit. step_settings.
  rewrite save_config_unsized by (left; reflexivity). cbn.
  repeat split.
Qed.

Lemma first_folder_choice_breaks_config_sample :
  fst (choose_folder "/tmp/shots" first_start) = Raise TypeError /\
  config (snd (choose_folder "/tmp/shots" first_start)) = Invalid.
Proof.
  assert (Hfld : "/tmp/shots" <> "") by discriminate.
  pose proof (first_folder_choice_breaks_config "/tmp/shots" {["/tmp/shots"]}
    "<built-in method width of MainWindow object at 0x7f3a5c0d1e50>"
    "<built-in method height of MainWindow object at 0x7f3a5c0d1e50>" Hfld)
    as H.
  cbv zeta in H. destruct H as (_ & _ & _ & _ & Hr & _ & _ & _ & Hc & _).
  exact (conj Hr Hc).
Defined.

(** X11: [choose_folder]: a cancelled dialog changes nothing; with both sizes
    integers, any folder the dialog returns is stored, shown in the form and
    saved to [config.txt] with the two sizes, and the status line says so.
    The folder is not checked in any way. *)
Theorem choose_folder_stores (s : State) (fld : string) (wd ht : Z) :
  width s = Int wd ->
  height s = Int ht ->
  choose_folder "" s = (Ok tt, s) /\
  (fld <> "" ->
   choose_folder fld s =
   (Ok tt,
    mkState fld (Int wd) (Int ht) fld (w_edit s) (h_edit s)
      "Folder set! Now press Ctrl+G to preview"
      (Object (Some fld) (Some wd) (Some ht))
      (directories s) (width_repr s) (height_repr s)
      (printed s ++ ["[DEBUG] Config saved";
                     "[DEBUG] Folder chosen: " +:+ fld]))).
Proof.
  intros Hw Hh. split; [reflexivity|].
  intros Hfld%String.eqb_neq.
  unfold choose_folder. rewrite Hfld.
  destruct s as [f w0 h0 fe we he st c ds wr hr pr]. cbn in Hw, Hh. subst.
  step_settings.
  unfold set_save_folder, set_folder_edit. cbn.
  rewrite (save_config_sized _ wd ht) by reflexivity.
  step_settings. rewrite <- app_assoc. reflexivity.
Qed.

Lemma choose_folder_stores_sample :
  config (run (choose_folder "/home/me/pics") sized) =
    Object (Some "/home/me/pics") (Some 800) (Some 600) /\
  save_folder (run (choose_folder "/home/me/pics") sized) = "/home/me/pics".
Proof.
  assert (Hfld : "/home/me/pics" <> "") by discriminate.
  destruct (choose_folder_stores sized "/home/me/pics" 800 600
              eq_refl eq_refl) as [_ H].
  unfold run. rewrite (H Hfld). split; reflexivity.
Defined.

Section SaveSize.

Variable int_str : string -> option Z.

(** X12: a size field whose text is no integer: [_save_size] catches the
    [ValueError], prints one line and changes nothing else; the sizes and
    [config.txt] stay as they were. *)
Theorem save_size_rejects_text (key : string) (s : State) :
  int_str (text_of key s) = None ->
  _save_size int_str key s =
  (Ok tt,
   mkState (save_folder s) (width s) (height s) (folder_edit s)
     (w_edit s) (h_edit s) (status s) (config s) (directories s)
     (width_repr s) (height_repr s)
     (printed s ++ ["[DEBUG] Invalid size input, ignoring"])).
Proof.
  unfold text_of. intros Hnone.
  unfold _save_size, try_except_ValueError. step_settings.
  rewrite Hnone. step_settings. reflexivity.
Qed.

(** X13: a size field whose text is an integer, in a window whose two sizes are
    integers: [_save_size] stores that integer, whatever it is (zero and
    negative numbers too), in the width for the key ["width"] and in the
    height for any other key, leaves the other size alone and saves both
    with the folder to [config.txt]. *)
Theorem save_size_stores_any_integer
    (key : string) (s : State) (wd ht val : Z) :
  width s = Int wd ->
  height s = Int ht ->
  int_str (text_of key s) = Some val ->
  let wd' := if String.eqb key "width" then val else wd in
  let ht' := if String.eqb key "width" then ht else val in
  fst (_save_size int_str key s) = Ok tt /\
  width (run (_save_size int_str key) s) = Int wd' /\
  height (run (_save_size int_str key) s) = Int ht' /\
  config (run (_save_size int_str key) s) =
    Object (Some (save_folder s)) (Some wd') (Some ht') /\
  save_folder (run (_save_size int_str key) s) = save_folder s /\
  status (run (_save_size int_str key) s) = status s /\
  w_edit (run (_save_size int_str key) s) = w_edit s /\
  h_edit (run (_save_size int_str key) s) = h_edit s.
Proof.
  intros Hw Hh Hval. cbv zeta. unfold text_of in Hval.
  destruct s as [f w0 h0 fe we he st c ds wr hr pr]. cbn in Hw, Hh, Hval.
  subst w0 h0.
  unfold run, _save_size, try_except_ValueError. step_settings.
  rewrite Hval. step_settings.
  destruct (String.eqb key "width"); step_settings.
  - unfold set_width. cbn.
    rewrite (save_config_sized _ val ht) by reflexivity. step_settings.
    repeat split.
  - unfold set_height. cbn.
    rewrite (save_config_sized _ wd val) by reflexivity. step_settings.
    repeat split.
Qed.

(** X14: a size field whose text is an integer, in a window whose other size is
    still the inherited method: the integer is stored, then [_save_config]
    raises [TypeError], which [except ValueError] does not catch: it leaves
    [_save_size], with [config.txt] unreadable. *)
Theorem save_size_first_edit_raises (key : string) (s : State) (val : Z) :
  other_size key s = Inherited ->
  int_str (text_of key s) = Some val ->
  fst (_save_size int_str key s) = Raise TypeError /\
  (if String.eqb key "width"
   then width (run (_save_size int_str key) s)
   else height (run (_save_size int_str key) s)) = Int val /\
  other_size key (run (_save_size int_str key) s) = Inherited /\
  config (run (_save_size int_str key) s) = Invalid.
Proof.
  unfold other_size, text_of. intros Hh Hval.
  destruct s as [f w0 h0 fe we he st c ds wr hr pr]. cbn in Hh, Hval.
  unfold run, _save_size, try_except_ValueError. step_settings.
  rewrite Hval. step_settings.
  destruct (String.eqb key "width"); subst; step_settings.
  - unfold set_width. cbn.
    rewrite save_config_unsized by (right; reflexivity). cbn.
    repeat split.
  - unfold set_height. cbn.
    rewrite save_config_unsized by (left; reflexivity). cbn.
    repeat split.
Qed.

End SaveSize.

Lemma save_size_rejects_text_sample :
  run (_save_size decimal "height") sized =
  mkState "/tmp/shots" (Int 800) (Int 600) "/tmp/shots" "0" "abc"
    "Folder set! Now press Ctrl+G to preview"
    (Object (Some "/tmp/shots") (Some 800) (Some 600))
    {["/tmp/shots"]} "" "" ["[DEBUG] Invalid size input, ignoring"].
Proof.
  unfold run.
  rewrite (save_size_rejects_text decimal "height" sized eq_refl).
  reflexivity.
Defined.

Lemma save_size_stores_any_integer_sample :
  width (run (_save_size decimal "width") sized) = Int 0 /\
  config (run (_save_size decimal "width") sized) =
    Object (Some "/tmp/shots") (Some 0) (Some 600).
Proof.
  pose proof (save_size_stores_any_integer decimal "width" sized 800 600 0
                eq_refl eq_refl eq_refl) as H.
  cbv zeta in H. destruct H as (_ & Hw & _ & Hc & _).
  exact (conj Hw Hc).
Defined.

Lemma save_size_first_edit_raises_sample :
  let s := mkState "" Inherited Inherited "" "640" "" "" Missing ∅ "" "" [] in
  fst (_save_size decimal "width" s) = Raise TypeError /\
  width (run (_save_size decimal "width") s) = Int 640 /\
  config (run (_save_size decimal "width") s) = Invalid.
Proof.
  pose proof (save_size_first_edit_raises decimal "width"
                (mkState "" Inherited Inherited "" "640" "" "" Missing ∅
                         "" "" [])
                640 eq_refl eq_refl) as (Hr & Hw & _ & Hc).
  exact (conj Hr (conj Hw Hc)).
Defined.

End SettingsFacts.

(** * From the settings to a session *)

(** X15: a start on a [config.txt] that holds a folder that names a directory
    and two sizes gives the window the overlay engine starts from, and the
    shortcut then opens a session with that region size, saving into that
    folder. *)
Theorem saved_settings_open_session
    (e : Env) (fld : string) (wd ht : Z) (ds : gset string) (wr hr : string) :
  fld <> "" ->
  fld ∈ ds ->
  let t := snd (Settings.start
                  (Settings.Object (Some fld) (Some wd) (Some ht)) ds wr hr) in
  world_of e t = Some (initial e fld wd ht) /\
  live_overlay (win (exec (dispatch ShortcutCtrlG) (initial e fld wd ht))) =
    Some (mkOverlay wd ht fld bound_overlay_closed true true (screen e)).
Proof.
  intros Hfld Hin t. split.
  - subst t.
    unfold Settings.start, Settings.MainWindow__init__, Settings._build_ui,
      Settings.blank.
    SettingsFacts.step_settings.
    match goal with
    | |- context [Settings._load_config ?u] =>
        rewrite (SettingsFacts.load_config_object u fld wd ht eq_refl)
    end.
    unfold Settings.isdir. cbn.
    apply String.eqb_neq in Hfld. rewrite Hfld, bool_decide_true by exact Hin.
    reflexivity.
  - assert (Hlive : live_overlay (win (initial e fld wd ht)) = None)
      by reflexivity.
    assert (Hf : folder (win (initial e fld wd ht)) <> "") by exact Hfld.
    destruct (toggle_opens _ Hlive Hf) as [line E].
    change (exec (dispatch ShortcutCtrlG) (initial e fld wd ht))
      with (snd (MainWindow_toggle_overlay (initial e fld wd ht))).
    rewrite E. reflexivity.
Qed.

Lemma saved_settings_open_session_sample :
  let t := snd (Settings.start
                  (Settings.Object (Some "/tmp/shots") (Some 800) (Some 600))
                  {["/tmp/shots"]} "" "") in
  world_of desk t = Some w0 /\
  live_overlay (win (exec (dispatch ShortcutCtrlG) w0)) = Some o1.
Proof.
  assert (Hfld : "/tmp/shots" <> "") by discriminate.
  assert (Hin : "/tmp/shots" ∈ ({["/tmp/shots"]} : gset string))
    by (apply elem_of_singleton; reflexivity).
  exact (saved_settings_open_session desk "/tmp/shots" 800 600
           {["/tmp/shots"]} "" "" Hfld Hin).
Defined.

(** X16: a start on a [config.txt] whose folder no longer names a directory
    gives a window with the two saved sizes and no folder, and the shortcut
    is then refused: the status line asks for a folder and no session
    opens. *)
Theorem vanished_folder_is_forgotten
    (e : Env) (fld : string) (wd ht : Z) (ds : gset string) (wr hr : string) :
  fld ∉ ds ->
  let t := snd (Settings.start
                  (Settings.Object (Some fld) (Some wd) (Some ht)) ds wr hr) in
  let s := exec (dispatch ShortcutCtrlG) (initial e "" wd ht) in
  world_of e t = Some (initial e "" wd ht) /\
  isActive s = false /\
  status (win s) = "Please select a folder first!".
Proof.
  intros Hin t s. split.
  - subst t.
    unfold Settings.start, Settings.MainWindow__init__, Settings._build_ui,
      Settings.blank.
    SettingsFacts.step_settings.
    match goal with
    | |- context [Settings._load_config ?u] =>
        rewrite (SettingsFacts.load_config_object u fld wd ht eq_refl)
    end.
    unfold Settings.isdir. cbn.
    rewrite bool_decide_false, andb_false_r by exact Hin.
    reflexivity.
  - split; reflexivity.
Qed.

Lemma vanished_folder_is_forgotten_sample :
  world_of desk
    (snd (Settings.start
            (Settings.Object (Some "/tmp/gone") (Some 800) (Some 600))
            {["/tmp/shots"]} "" "")) =
  Some (initial desk "" 800 600).
Proof.
  assert (Hin : "/tmp/gone" ∉ ({["/tmp/shots"]} : gset string))
    by (intros H%elem_of_singleton; discriminate).
  exact (proj1 (vanished_folder_is_forgotten desk "/tmp/gone" 800 600
                  {["/tmp/shots"]} "" "" Hin)).
Defined.
